(** * Activity timeline: the feed, its item renderers, the comment composer
      and the comment deletion flow.

    Embedding of
    [packages/app-features/contacts/components/activity-timeline/activity-timeline.tsx].

    A function component is a function from its props to the element it
    returns.  An element of one of this file's components is a constructor
    of [Node] holding the props it was created with, and [render] is React
    calling the component functions: parent before children, siblings left
    to right, the first exception ending the render.  Reading a property of
    [undefined] and reading an unbound identifier are the two ways these
    functions throw.

    Handlers are kept as data ([Handler]) naming the closure and what it
    captures; [step] runs them on a [World] that records every call of the
    two injected callbacks. *)

From Stdlib Require Import String List Bool Arith Lia.
Import ListNotations.
Open Scope string_scope.

(** * Part I: the program *)

(** ** Values *)

(** What a component function can throw. *)
Inductive Exn : Type :=
| ReferenceError (ident : string)       (* an identifier bound nowhere *)
| TypeError (prop : string).            (* reading [prop] of undefined *)

Inductive result (A : Type) : Type :=
| Ok (a : A)
| Throw (e : Exn).
Arguments Ok {A} a.
Arguments Throw {A} e.

(** [a || b] on optional strings: undefined and the empty string are falsy. *)
Definition truthy (v : option string) : bool :=
  match v with
  | Some s => negb (s =? "")
  | None => false
  end.

Definition js_or (a b : option string) : option string :=
  if truthy a then a else b.

(** [a && f a]: a falsy [a] is the value of the whole expression. *)
Definition js_and (a : option string) (f : string -> string) : option string :=
  match a with
  | Some s => if s =? "" then Some "" else Some (f s)
  | None => None
  end.

Definition Date := nat.

(** [User] of the UI library, every property optional ([Partial<User>]). *)
Module User.
Record t : Type := mk {
  id : option string;
  name : option string;
  email : option string;
  avatar : option string;
  presence : option string;
  status : option string
}.
End User.

(** The [data] object of an activity, with the properties the renderers
    read; a property the object does not have reads as undefined. *)
Module Data.
Record t : Type := mk {
  action : option string;
  comment : option string;
  field : option string;
  oldValue : option string;
  value : option string
}.
End Data.

(** An activity object as it reaches the feed (lines 50-56): the declared
    properties [id], [user], [type], [data], [date], and the property
    [users], which the declared type does not have but which the item
    renderers destructure (lines 180, 218, 240).  An object of exactly the
    declared shape has [users] undefined. *)
Module Activity.
Record t : Type := mk {
  id : string;
  user : User.t;
  users : option User.t;
  type : string;
  data : Data.t;
  date : Date
}.

(** An object with the declared properties and no other. *)
Definition declared (id : string) (user : User.t) (type : string)
    (data : Data.t) (date : Date) : t :=
  mk id user None type data date.
End Activity.

(** The composer's form values (lines 295-298). *)
Module Comment.
Record t : Type := mk {
  files : option (list string);
  comment : string
}.
End Comment.

(** The injected callbacks are opaque functions; the feed only ever calls
    them, and the model records each call. *)
Inductive Callback : Type :=
| Fn (name : string).

(** ** Elements *)

(** Event handlers the components create, with what each closure captures. *)
Inductive Handler : Type :=
| LinkClick (href : string)                              (* lines 162-165 *)
| DeleteClick (id : string) (onDelete : option Callback) (* lines 273-280 *)
| FormSubmit (onSubmit : Callback)                       (* lines 330-334 *)
| EditorKeyDown (onSubmit : Callback).                   (* lines 342-346 *)

Inductive Attr : Type :=
| AStr (s : string)
| AOpt (s : option string)
| ABool (b : bool)
| ADate (d : Date)
| AObj (fields : list (string * string))
| ARef (name : string)
| AOn (h : Handler).

Definition Attrs := list (string * Attr).

#[local] Set Warnings "-register-all".

Inductive Node : Type :=
| NUndefined                                 (* undefined: renders nothing *)
| NText (s : string)
| NArr (items : list Node)                   (* an array child *)
| NHost (name : string) (attrs : Attrs) (children : list Node)
                                             (* element of an imported component *)
| NTooltip (label : Node) (children : list Node)
| NItem (id : option string) (icon : Node) (iconOffset : option string)
        (children : list Node)               (* <ActivityTimelineItem> *)
| NActivityText (attrs : Attrs) (children : list Node)
| NDate (date : Date)                        (* <ActivityTimelineDate> *)
| NLink (href : option string) (attrs : Attrs) (children : list Node)
| NUser (user : option User.t) (rest : Attrs)  (* <ActivityUser> *)
| NUpdateIcon (data : Data.t)
| NAction (key : string) (props : Activity.t)
| NComment (key : string) (props : Activity.t) (onDelete : option Callback)
| NUpdate (key : string) (props : Activity.t)
| NAddComment (user : User.t) (onSubmit : Callback).

(** A string-valued expression used as a child. *)
Definition child (v : option string) : Node :=
  match v with
  | Some s => NText s
  | None => NUndefined
  end.

(** ** Components *)

Record ActivityTimelineProps : Type := {
  activities : option (list Activity.t);   (* read with [?.] on line 81 *)
  currentUser : User.t;
  onAddComment : Callback;
  onDeleteComment : option Callback
}.

(** The callback given to [map] (lines 81-96): a [switch] with no default. *)
Definition dispatch (onDeleteComment : option Callback) (activity : Activity.t)
    : Node :=
  if Activity.type activity =? "action" then
    NAction (Activity.id activity) activity
  else if Activity.type activity =? "comment" then
    NComment (Activity.id activity) activity onDeleteComment
  else if Activity.type activity =? "update" then
    NUpdate (Activity.id activity) activity
  else NUndefined.

Definition ActivityTimeline (props : ActivityTimelineProps) : Node :=
  NHost "Timeline" []
    [NHost "AnimatePresence" [("initial", ABool false)]
       [match activities props with
        | Some l => NArr (map (dispatch (onDeleteComment props)) l)
        | None => NUndefined
        end;
        NAddComment (currentUser props) (onAddComment props)]].

Definition ActivityTimelineItem (id : option string) (icon : Node)
    (iconOffset : option string) (children : list Node) : Node :=
  let iconOffset := match iconOffset with Some o => o | None => "-2px" end in
  NHost "TimelineItem"
    [("as", AStr "MotionBox"); ("id", AOpt id); ("minH", AStr "38px");
     ("overflow", AStr "hidden");
     ("initial", AObj [("opacity", "0"); ("height", "0"); ("minHeight", "0")]);
     ("animate", AObj [("opacity", "1"); ("height", "auto")]);
     ("exit", AObj [("opacity", "0"); ("height", "0"); ("minHeight", "0")]);
     ("role", AStr "group")]
    [NHost "TimelineSeparator" []
       [NHost "TimelineTrack" [("top", AStr "0"); ("bottom", AStr "auto")] [];
        NHost "TimelineIcon" [("mt", AStr iconOffset)] [icon];
        NHost "TimelineTrack" [] []];
     NHost "TimelineContent" [] children].

Definition ActivityText (props : Attrs) (children : list Node) : Node :=
  NHost "Text" ([("as", AStr "span"); ("color", AStr "muted")] ++ props)%list
    children.

Definition ActivityTimelineDate (date : Date) : Node :=
  NTooltip (NHost "DateTime" [("date", ADate date)] [])
    [NActivityText [] [NHost "RelativeTime" [("date", ADate date)] []]].

Definition ActivityLink (href : option string) (props : Attrs)
    (children : list Node) : Node :=
  NHost "Link"
    ([("href", AOpt href)] ++ props
     ++ [("onClick",
          AOn (LinkClick (match js_or href (Some "") with
                          | Some s => s
                          | None => ""
                          end)))])%list
    children.

(** Lines 170-177: [user.name] is the first property read. *)
Definition ActivityUser (user : option User.t) (rest : Attrs) : result Node :=
  match user with
  | None => Throw (TypeError "name")
  | Some user =>
      Ok (NActivityText
            ([("fontWeight", AStr "medium"); ("color", AStr "app-text")]
             ++ rest)%list
            [child (js_or (js_or (User.name user) (User.email user))
                          (User.id user))])
  end.

Definition UpdateIcon (props : Data.t) : Node :=
  match Data.field props with
  | Some f =>
      if f =? "status"
      then NHost "StatusBadge" [("color", AOpt (Data.value props))] []
      else NHost "TimelineDot" [] []
  | None => NHost "TimelineDot" [] []
  end.

Section Renderers.

(** The body of [ActivityTimelineAction] reads an identifier [user] that
    neither the function nor the module binds (line 180 destructures
    [users]).  [free_user] is what the enclosing scope gives for it:
    [None] when, as in the module as written, there is no such binding. *)
Variable free_user : option User.t.

(** Lines 179-201: the props of the item are evaluated first, the icon's
    [user.avatar] among them. *)
Definition ActivityTimelineAction (props : Activity.t) : result Node :=
  let id := Activity.id props in
  let users := Activity.users props in
  let date := Activity.date props in
  match free_user with
  | None => Throw (ReferenceError "user")
  | Some user =>
      Ok (NItem (Some ("action-" ++ id))
            (NHost "PersonaAvatar"
               [("src", AOpt (User.avatar user)); ("name", AOpt (User.name user));
                ("size", AStr "2xs"); ("presence", AOpt (User.status user))] [])
            None
            [NActivityText [] [NUser users []; NText " created the contact."];
             NText " ";
             NLink (Some ("#action-" ++ id)) [("color", AStr "muted")]
               [NDate date]])
  end.

Definition ActivityTimelineUpdate (props : Activity.t) : Node :=
  let id := Activity.id props in
  let users := Activity.users props in
  let data := Activity.data props in
  let date := Activity.date props in
  NItem (Some ("update-" ++ id)) (NUpdateIcon data) None
    [NActivityText []
       [NUser users []; NText " changed "; child (Data.field data);
        NText " to "; child (Data.value data);
        child (js_and (Data.oldValue data) (fun o => " from " ++ o));
        NText "."];
     NText " ";
     NLink (Some ("#update-" ++ id)) [("color", AStr "muted")] [NDate date]].

(** Lines 237-293: the icon reads [users.avatar] before anything is
    returned. *)
Definition ActivityTimelineComment (props : Activity.t)
    (onDelete : option Callback) : result Node :=
  let id := Activity.id props in
  let data := Activity.data props in
  let date := Activity.date props in
  match Activity.users props with
  | None => Throw (TypeError "avatar")
  | Some users =>
      Ok (NItem (Some ("comment-" ++ id))
            (NHost "PersonaAvatar"
               [("src", AOpt (User.avatar users)); ("name", AOpt (User.name users));
                ("size", AStr "xs"); ("presence", AOpt (User.presence users))] [])
            (Some "2px")
            [NHost "Card" [("mb", AStr "4")]
               [NHost "CardBody" [("py", AStr "2")]
                  [NHost "HStack" [("mb", AStr "4")]
                     [NUser (Some users) [];
                      NLink (Some ("#action-" ++ id)) [("color", AStr "muted")]
                        [NDate date];
                      NHost "ButtonGroup"
                        [("position", AStr "absolute"); ("top", AStr "2");
                         ("right", AStr "2"); ("opacity", AStr "0");
                         ("transition", AStr "all .2s ease-in");
                         ("_groupHover", AObj [("opacity", "1")])]
                        [NHost "OverflowMenu" [("size", AStr "xs")]
                           [NHost "MenuItem"
                              [("onClick", AOn (DeleteClick id onDelete))]
                              [NText "Delete"]]]];
                   NHost "Box"
                     [("dangerouslySetInnerHTML", AOpt (Data.comment data))]
                     []]]])
  end.

Definition ActivityTimelineAddComment (user : User.t) (onSubmit : Callback)
    : Node :=
  NHost "TimelineItem" [("minH", AStr "38px")]
    [NHost "TimelineSeparator" []
       [NHost "TimelineTrack" [("top", AStr "0"); ("bottom", AStr "auto")] [];
        NHost "TimelineIcon" [("mt", AStr "2px")]
          [NHost "PersonaAvatar"
             [("src", AOpt (User.avatar user)); ("name", AOpt (User.name user));
              ("size", AStr "xs"); ("presence", AOpt (User.presence user))] []]];
     NHost "TimelineContent" []
       [NHost "Card" [("py", AStr "3"); ("px", AStr "4")]
          [NHost "Form"
             [("ref", ARef "formRef"); ("onSubmit", AOn (FormSubmit onSubmit))]
             [NHost "FormLayout" []
                [NHost "EditorField"
                   [("name", AStr "comment"); ("border", AStr "0");
                    ("padding", AStr "0");
                    ("placeholder", AStr "Write your comment...");
                    ("onKeyDown", AOn (EditorKeyDown onSubmit))] [];
                 NHost "Toolbar" []
                   [NHost "ToolbarButton"
                      [("icon", AStr "FiPaperclip"); ("color", AStr "muted");
                       ("label", AStr "Upload a file")] [];
                    NHost "Spacer" [] [];
                    NTooltip
                      (NArr [NText "Submit comment ";
                             NHost "Command" [] [NText "⌘ enter"]])
                      [NHost "SubmitButton" [("ref", ARef "submitRef")]
                         [NText "Comment"]]]]]]]].

(** ** Rendering *)

(** Children are rendered in order; the first throw ends the render. *)
Fixpoint render_all (r : Node -> option (result Node)) (l : list Node)
    : option (result (list Node)) :=
  match l with
  | [] => Some (Ok [])
  | n :: l' =>
      match r n with
      | None => None
      | Some (Throw e) => Some (Throw e)
      | Some (Ok t) =>
          match render_all r l' with
          | None => None
          | Some (Throw e) => Some (Throw e)
          | Some (Ok ts) => Some (Ok (t :: ts))
          end
      end
  end.

Definition with_children (k : list Node -> Node)
    (r : option (result (list Node))) : option (result Node) :=
  match r with
  | None => None
  | Some (Throw e) => Some (Throw e)
  | Some (Ok ts) => Some (Ok (k ts))
  end.

(** [render fuel n]: the tree of imported components and text that [n]
    renders to, or the exception that ends the render; [None] when [fuel]
    component calls and nestings were not enough.  A tooltip's label is
    kept as it is: it is rendered only when the tooltip opens. *)
Fixpoint render (fuel : nat) (n : Node) : option (result Node) :=
  match fuel with
  | 0 => None
  | S fuel =>
      match n with
      | NUndefined => Some (Ok NUndefined)
      | NText s => Some (Ok (NText s))
      | NArr items => with_children NArr (render_all (render fuel) items)
      | NHost name attrs children =>
          with_children (NHost name attrs) (render_all (render fuel) children)
      | NTooltip label children =>
          with_children (NTooltip label) (render_all (render fuel) children)
      | NItem id icon iconOffset children =>
          render fuel (ActivityTimelineItem id icon iconOffset children)
      | NActivityText attrs children => render fuel (ActivityText attrs children)
      | NDate date => render fuel (ActivityTimelineDate date)
      | NLink href attrs children => render fuel (ActivityLink href attrs children)
      | NUser user rest =>
          match ActivityUser user rest with
          | Ok t => render fuel t
          | Throw e => Some (Throw e)
          end
      | NUpdateIcon data => render fuel (UpdateIcon data)
      | NAction _ props =>
          match ActivityTimelineAction props with
          | Ok t => render fuel t
          | Throw e => Some (Throw e)
          end
      | NComment _ props onDelete =>
          match ActivityTimelineComment props onDelete with
          | Ok t => render fuel t
          | Throw e => Some (Throw e)
          end
      | NUpdate _ props => render fuel (ActivityTimelineUpdate props)
      | NAddComment user onSubmit =>
          render fuel (ActivityTimelineAddComment user onSubmit)
      end
  end.

(** [n] renders to [out], given enough fuel. *)
Definition renders (n : Node) (out : result Node) : Prop :=
  exists fuel, render fuel n = Some out.

Definition renders_all (l : list Node) (out : result (list Node)) : Prop :=
  exists fuel, render_all (render fuel) l = Some out.

End Renderers.

(** ** Reading a tree *)

(** What React keeps of a child: an array is flattened, undefined is
    dropped. *)
Fixpoint flat (n : Node) : list Node :=
  match n with
  | NUndefined => []
  | NArr items => flat_map flat items
  | _ => [n]
  end.

Definition toArray (l : list Node) : list Node := flat_map flat l.

(** The items [ActivityTimeline] hands to the presence wrapper, in order. *)
Definition slots (n : Node) : list Node :=
  match n with
  | NHost _ _ [NHost _ _ children] => toArray children
  | _ => []
  end.

Definition isComposer (n : Node) : bool :=
  match n with
  | NAddComment _ _ => true
  | _ => false
  end.

(** A later attribute of the same name overrides an earlier one. *)
Fixpoint attr (name : string) (attrs : Attrs) : option Attr :=
  match attrs with
  | [] => None
  | (k, v) :: r =>
      match attr name r with
      | Some a => Some a
      | None => if k =? name then Some v else None
      end
  end.

Fixpoint textContent (n : Node) : string :=
  match n with
  | NText s => s
  | NArr l | NHost _ _ l | NTooltip _ l =>
      fold_right (fun x acc => textContent x ++ acc) "" l
  | _ => ""
  end.

(** The outermost elements of the imported component [name], in document
    order. *)
Fixpoint hosts (name : string) (n : Node) : list Node :=
  match n with
  | NHost h _ l => if h =? name then [n] else flat_map (hosts name) l
  | NArr l | NTooltip _ l => flat_map (hosts name) l
  | _ => []
  end.

(** The [id] a rendered item carries. *)
Definition anchor (t : Node) : option string :=
  match t with
  | NHost _ attrs _ =>
      match attr "id" attrs with
      | Some (AOpt o) => o
      | _ => None
      end
  | _ => None
  end.

Definition href (t : Node) : option string :=
  match t with
  | NHost _ attrs _ =>
      match attr "href" attrs with
      | Some (AOpt o) => o
      | _ => None
      end
  | _ => None
  end.

Definition onClick (t : Node) : option Handler :=
  match t with
  | NHost _ attrs _ =>
      match attr "onClick" attrs with
      | Some (AOn h) => Some h
      | _ => None
      end
  | _ => None
  end.

(** Targets of the links in an item. *)
Definition links (t : Node) : list (option string) :=
  map href (hosts "Link" t).

(** The sentence of an item: its first text span. *)
Definition sentence (t : Node) : option string :=
  match hosts "Text" t with
  | s :: _ => Some (textContent s)
  | [] => None
  end.

(** The menu entries an item offers: label and click handler. *)
Definition menu (t : Node) : list (string * option Handler) :=
  map (fun m => (textContent m, onClick m)) (hosts "MenuItem" t).

(** ** Interaction *)

(** A call of an injected callback. *)
Inductive Call : Type :=
| CallSubmit (f : Callback) (data : Comment.t)
| CallDelete (f : Callback) (id : string).

(** The options object given to [modals.confirm] (lines 274-279);
    [onConfirm] is the closure [() => onDelete?.(id)], kept as the two
    values it captures. *)
Record Prompt : Type := {
  title : string;
  body : string;
  confirmProps : list (string * string);
  onConfirm : option Callback * string
}.

(** The page around one feed: the calls made so far, what the modals host,
    the clipboard and the snackbar hold, and the state of the composer's
    form. *)
Record World : Type := {
  calls : list Call;              (* oldest first *)
  prompts : list Prompt;          (* open confirmations, latest first *)
  clipboard : option string;
  snackbar : list string;
  values : Comment.t;             (* the form's values: the draft *)
  formRef : bool;                 (* [formRef.current] is set *)
  submitRef : bool;               (* [submitRef.current] is set *)
  awaiting : list Comment.t       (* submit handlers suspended at [await] *)
}.

Definition emptyDraft : Comment.t := Comment.mk None "".

(** A mounted feed before any interaction: both refs are attached. *)
Definition mounted (draft : Comment.t) : World :=
  {| calls := []; prompts := []; clipboard := None; snackbar := [];
     values := draft; formRef := true; submitRef := true; awaiting := [] |}.

Definition set_calls (c : list Call) (w : World) : World :=
  {| calls := c; prompts := prompts w; clipboard := clipboard w;
     snackbar := snackbar w; values := values w; formRef := formRef w;
     submitRef := submitRef w; awaiting := awaiting w |}.

Definition set_prompts (p : list Prompt) (w : World) : World :=
  {| calls := calls w; prompts := p; clipboard := clipboard w;
     snackbar := snackbar w; values := values w; formRef := formRef w;
     submitRef := submitRef w; awaiting := awaiting w |}.

Definition set_values (v : Comment.t) (w : World) : World :=
  {| calls := calls w; prompts := prompts w; clipboard := clipboard w;
     snackbar := snackbar w; values := v; formRef := formRef w;
     submitRef := submitRef w; awaiting := awaiting w |}.

Definition set_awaiting (a : list Comment.t) (w : World) : World :=
  {| calls := calls w; prompts := prompts w; clipboard := clipboard w;
     snackbar := snackbar w; values := values w; formRef := formRef w;
     submitRef := submitRef w; awaiting := a |}.

(** [f?.(id)] *)
Definition call_optional (f : option Callback) (id : string) (w : World)
    : World :=
  match f with
  | Some f => set_calls (calls w ++ [CallDelete f id]) w
  | None => w
  end.

(** The [Form]'s [onSubmit] (lines 330-334) up to its [await]: the callback
    is called with the data, and the rest of the handler waits for the
    returned promise.  Nothing is looked at before the call: not the data,
    not whether an earlier call is still awaited. *)
Definition Form_onSubmit (onSubmit : Callback) (data : Comment.t) (w : World)
    : World :=
  set_awaiting (awaiting w ++ [data])
    (set_calls (calls w ++ [CallSubmit onSubmit data]) w).

(** The rest of the handler, run when the awaited promise resolves:
    [formRef.current?.reset()].  The form declares no default values, so a
    reset leaves the empty draft.  When the promise rejects the handler ends
    at the [await] and this is not run. *)
Definition Form_onSubmit_resume (w : World) : World :=
  if formRef w then set_values emptyDraft w else w.

(** A click handler runs. *)
Definition click (h : Handler) (w : World) : World :=
  match h with
  | LinkClick href =>
      {| calls := calls w; prompts := prompts w; clipboard := Some href;
         snackbar := snackbar w ++ ["Link copied to clipboard"];
         values := values w; formRef := formRef w; submitRef := submitRef w;
         awaiting := awaiting w |}
  | DeleteClick id onDelete =>
      set_prompts
        ({| title := "Are you sure you want to delete this comment?";
            body := "This action cannot be undone.";
            confirmProps := [("colorScheme", "red")];
            onConfirm := (onDelete, id) |} :: prompts w) w
  | FormSubmit _ | EditorKeyDown _ => w
  end.

(** The editor's [onKeyDown] (lines 342-346): with the meta key, Enter
    calls [submitRef.current?.click()]; the click on the submit button
    submits the form, which calls its [onSubmit] with the current values. *)
Definition keyDown (h : Handler) (key : string) (metaKey : bool) (w : World)
    : World :=
  match h with
  | EditorKeyDown onSubmit =>
      if (key =? "Enter") && metaKey && submitRef w
      then Form_onSubmit onSubmit (values w) w
      else w
  | _ => w
  end.

Fixpoint remove_nth {A} (i : nat) (l : list A) : list A :=
  match i, l with
  | _, [] => []
  | 0, _ :: r => r
  | S i, x :: r => x :: remove_nth i r
  end.

(** What can happen on the page.  The modals host answers the latest
    prompt: confirming runs its [onConfirm], dismissing runs nothing.
    [Submit h] is the form calling its [onSubmit] handler [h] with the
    current values; whether the imported form or button hold a submission
    back is theirs to decide and not part of this file. *)
Inductive Event : Type :=
| Click (h : Handler)
| Confirm
| Cancel
| Edit (draft : Comment.t)
| Submit (h : Handler)
| KeyDown (h : Handler) (key : string) (metaKey : bool)
| Resolve (i : nat)       (* the promise the [i]-th waiting handler awaits *)
| Reject (i : nat).

Definition step (e : Event) (w : World) : World :=
  match e with
  | Click h => click h w
  | Confirm =>
      match prompts w with
      | p :: rest =>
          call_optional (fst (onConfirm p)) (snd (onConfirm p))
            (set_prompts rest w)
      | [] => w
      end
  | Cancel =>
      match prompts w with
      | _ :: rest => set_prompts rest w
      | [] => w
      end
  | Edit draft => set_values draft w
  | Submit (FormSubmit onSubmit) => Form_onSubmit onSubmit (values w) w
  | Submit _ => w
  | KeyDown h key metaKey => keyDown h key metaKey w
  | Resolve i =>
      if (i <? length (awaiting w))%nat
      then Form_onSubmit_resume (set_awaiting (remove_nth i (awaiting w)) w)
      else w
  | Reject i =>
      if (i <? length (awaiting w))%nat
      then set_awaiting (remove_nth i (awaiting w)) w
      else w
  end.

Fixpoint run (es : list Event) (w : World) : World :=
  match es with
  | [] => w
  | e :: es => run es (step e w)
  end.

(** ** Vocabulary of the statements *)

(** The activities the feed walks: none when [activities] is undefined. *)
Definition walked (props : ActivityTimelineProps) : list Activity.t :=
  match activities props with
  | Some l => l
  | None => []
  end.

(** The elements the dispatch callback leaves in the feed, in order. *)
Definition dispatched (props : ActivityTimelineProps) : list Node :=
  toArray (map (dispatch (onDeleteComment props)) (walked props)).

Definition composer (props : ActivityTimelineProps) : Node :=
  NAddComment (currentUser props) (onAddComment props).

Definition recognized (type : string) : Prop :=
  type = "action" \/ type = "comment" \/ type = "update".

Definition recognizedb (type : string) : bool :=
  (type =? "action") || (type =? "comment") || (type =? "update").

(** The [key] an activity element was created with. *)
Definition key_of (n : Node) : option string :=
  match n with
  | NAction key _ | NComment key _ _ | NUpdate key _ => Some key
  | _ => None
  end.

(** What a string-valued child shows. *)
Definition shown (v : option string) : string :=
  match v with
  | Some s => s
  | None => ""
  end.

(** [user.name || user.email || user.id] *)
Definition displayName (u : User.t) : option string :=
  js_or (js_or (User.name u) (User.email u)) (User.id u).

(** The text the specification gives for an update: the "from" clause
    whenever [oldValue] is present. *)
Definition claimed_sentence (user : string) (data : Data.t) : string :=
  user ++ " changed " ++ shown (Data.field data) ++ " to "
  ++ shown (Data.value data)
  ++ match Data.oldValue data with
     | Some o => " from " ++ o
     | None => ""
     end.

Definition isDelete (c : Call) : bool :=
  match c with
  | CallDelete _ _ => true
  | CallSubmit _ _ => false
  end.

Definition isSubmit (c : Call) : bool := negb (isDelete c).

Definition isConfirm (e : Event) : bool :=
  match e with
  | Confirm => true
  | _ => false
  end.

(** An event that makes the form call the composer's [onSubmit]. *)
Definition submits (e : Event) (w : World) : bool :=
  match e with
  | Submit (FormSubmit _) => true
  | KeyDown (EditorKeyDown _) key metaKey =>
      (key =? "Enter") && metaKey && submitRef w
  | _ => false
  end.

Fixpoint submissions (es : list Event) (w : World) : nat :=
  match es with
  | [] => 0
  | e :: es => (if submits e w then 1 else 0) + submissions es (step e w)
  end.

Definition isSpace (c : Ascii.ascii) : bool :=
  let n := Ascii.nat_of_ascii c in
  (n =? 32)%nat || ((9 <=? n)%nat && (n <=? 13)%nat).

(** Empty or made of white space only. *)
Fixpoint blank (s : string) : bool :=
  match s with
  | EmptyString => true
  | String c s => isSpace c && blank s
  end.

(** ** Sample inputs *)

Definition ada : User.t :=
  User.mk (Some "u1") (Some "Ada") (Some "ada@example.com") None None None.

(** Records of the declared shape. *)
Definition created : Activity.t :=
  Activity.declared "1" ada "action"
    (Data.mk (Some "created") None None None None) 0.

Definition mention : Activity.t :=
  Activity.declared "5" ada "mention" (Data.mk None None None None None) 0.

(** Objects that, besides the declared properties, carry the author under
    [users]. *)
Definition retitled (oldValue : option string) : Activity.t :=
  Activity.mk "7" ada (Some ada) "update"
    (Data.mk None None (Some "title") oldValue (Some "Acme")) 0.

Definition remark : Activity.t :=
  Activity.mk "9" ada (Some ada) "comment"
    (Data.mk None (Some "<p>hello</p>") None None None) 0.

(** The tree a sample element renders to. *)
Definition rendered (n : Node) : Node :=
  match render None 24 n with
  | Some (Ok t) => t
  | _ => NUndefined
  end.

Definition retitled_item : Node :=
  Eval vm_compute in rendered (NUpdate "7" (retitled (Some "Old Co"))).

Definition remark_item : Node :=
  Eval vm_compute in
    rendered (NComment "9" remark (Some (Fn "deleteComment"))).

Definition remark_item_without_delete : Node :=
  Eval vm_compute in rendered (NComment "9" remark None).

Definition no_feed : ActivityTimelineProps :=
  {| activities := None; currentUser := ada;
     onAddComment := Fn "addComment"; onDeleteComment := None |}.

Definition feed_of_created : ActivityTimelineProps :=
  {| activities := Some [created]; currentUser := ada;
     onAddComment := Fn "addComment"; onDeleteComment := None |}.

(** The feed of one comment, with no [onDeleteComment]. *)
Definition feed_without_delete : ActivityTimelineProps :=
  {| activities := Some [remark]; currentUser := ada;
     onAddComment := Fn "addComment"; onDeleteComment := None |}.

(** The feed of one comment, with an [onDeleteComment]. *)
Definition feed_with_delete : ActivityTimelineProps :=
  {| activities := Some [remark]; currentUser := ada;
     onAddComment := Fn "addComment";
     onDeleteComment := Some (Fn "deleteComment") |}.

Definition hello : Comment.t := Comment.mk (Some ["notes.txt"]) "hello".

Definition spaces : Comment.t := Comment.mk None "   ".

(** ** Vocabulary of the further properties *)

(** Undefined or the empty string: what [||] and [&&] take for false. *)
Definition missing (v : option string) : Prop := v = None \/ v = Some "".

Definition attrsOf (n : Node) : Attrs :=
  match n with
  | NHost _ attrs _ => attrs
  | _ => []
  end.

Definition childrenOf (n : Node) : list Node :=
  match n with
  | NHost _ _ l => l
  | _ => []
  end.

(** What sits in the icon slot of an item. *)
Definition icons (t : Node) : list Node :=
  flat_map childrenOf (hosts "TimelineIcon" t).

(** The HTML handed to the boxes of an item. *)
Definition bodies (t : Node) : list (option Attr) :=
  map (fun b => attr "dangerouslySetInnerHTML" (attrsOf b)) (hosts "Box" t).

Definition linkHandlers (t : Node) : list (option Handler) :=
  map onClick (hosts "Link" t).

Definition formHandlers (t : Node) : list (option Attr) :=
  map (fun f => attr "onSubmit" (attrsOf f)) (hosts "Form" t).

Definition editorHandlers (t : Node) : list (option Attr) :=
  map (fun f => attr "onKeyDown" (attrsOf f)) (hosts "EditorField" t).

Definition avatars (t : Node) : list Attrs :=
  map attrsOf (hosts "PersonaAvatar" t).

(** The motion properties of an element: how it enters, stays and leaves. *)
Definition motion (t : Node) : option Attr * option Attr * option Attr :=
  (attr "initial" (attrsOf t), attr "animate" (attrsOf t),
   attr "exit" (attrsOf t)).

Definition collapsed : Attr :=
  AObj [("opacity", "0"); ("height", "0"); ("minHeight", "0")].

Definition expanded : Attr := AObj [("opacity", "1"); ("height", "auto")].

(** Events that can change the draft. *)
Definition changesDraft (e : Event) : bool :=
  match e with
  | Edit _ | Resolve _ => true
  | _ => false
  end.

(** A settlement of a promise some handler is waiting for. *)
Definition settles (e : Event) (w : World) : bool :=
  match e with
  | Resolve i | Reject i => (i <? length (awaiting w))%nat
  | _ => false
  end.

Fixpoint settlements (es : list Event) (w : World) : nat :=
  match es with
  | [] => 0
  | e :: es => (if settles e w then 1 else 0) + settlements es (step e w)
  end.

(** A key press that is Enter with the meta key held. *)
Definition metaEnter (k : string * bool) : bool := (fst k =? "Enter") && snd k.

(** The prompts a delete click of [id] with callback [f] has left open, and
    the delete calls made: where a call of [f] with [id] can come from. *)
Definition asked (f : Callback) (id : string) (w : World) : Prop :=
  In (CallDelete f id) (calls w)
  \/ exists p, In p (prompts w) /\ onConfirm p = (Some f, id).

Definition status_change : Activity.t :=
  Activity.mk "3" ada (Some ada) "update"
    (Data.mk None None (Some "status") (Some "new") (Some "green")) 0.

Definition nameless : User.t :=
  User.mk (Some "u2") (Some "") (Some "bo@example.com") None None None.

(** A record whose element renders in the module as written: of no
    recognized kind, or a comment or update carrying its author under
    [users]. *)
Definition renderable (a : Activity.t) : bool :=
  if Activity.type a =? "action" then false
  else if (Activity.type a =? "comment") || (Activity.type a =? "update")
  then match Activity.users a with Some _ => true | None => false end
  else true.

Definition keyDowns (f : Callback) (ks : list (string * bool)) : list Event :=
  map (fun k => KeyDown (EditorKeyDown f) (fst k) (snd k)) ks.

Definition renamed : Activity.t :=
  Activity.mk "1" nameless (Some ada) "whatever"
    (Data.mk (Some "archived") None None None None) 0.

Definition created_with_author : Activity.t :=
  Activity.mk "1" ada (Some ada) "action"
    (Data.mk (Some "created") None None None None) 0.

Definition more : Comment.t := Comment.mk None "more".

Definition mixed_feed : ActivityTimelineProps :=
  {| activities := Some [remark; mention; retitled None]; currentUser := ada;
     onAddComment := Fn "addComment"; onDeleteComment := None |}.

(** A session with no edit and no resolved submission. *)
Definition busy_session : list Event :=
  [Submit (FormSubmit (Fn "addComment")); Reject 0;
   Click (DeleteClick "9" (Some (Fn "deleteComment"))); Confirm;
   KeyDown (EditorKeyDown (Fn "addComment")) "Enter" true].

Definition nameless_label : Node :=
  Eval vm_compute in rendered (NUser (Some nameless) []).

Definition status_item : Node :=
  Eval vm_compute in rendered (NUpdate "3" status_change).

Definition created_item : Node :=
  Eval vm_compute in
    match render (Some ada) 24 (NAction "1" created_with_author) with
    | Some (Ok t) => t
    | _ => NUndefined
    end.

Definition no_feed_composer : Node :=
  Eval vm_compute in rendered (composer no_feed).

(** * Part II: properties *)

(** ** Rendering is determined by the element *)

Section RenderFacts.

Variable free_user : option User.t.

Lemma render_all_more (r r' : Node -> option (result Node)) (l : list Node) :
  (forall n out, r n = Some out -> r' n = Some out) ->
  forall out, render_all r l = Some out -> render_all r' l = Some out.
Proof.
  intros Hr. induction l as [|n l IH]; intros out; simpl; [easy|].
  destruct (r n) as [[t|e]|] eqn:En; try discriminate.
  - rewrite (Hr _ _ En).
    destruct (render_all r l) as [[ts|e]|]; try discriminate;
      intros H; rewrite (IH _ eq_refl); exact H.
  - rewrite (Hr _ _ En). easy.
Qed.

Lemma with_children_more k (a b : option (result (list Node))) :
  (forall out, a = Some out -> b = Some out) ->
  forall out, with_children k a = Some out -> with_children k b = Some out.
Proof.
  intros H out. destruct a as [[ts|e]|]; simpl; try discriminate;
    rewrite (H _ eq_refl); easy.
Qed.

(** More fuel never changes an outcome already reached. *)
Lemma render_S (fuel : nat) :
  forall n out,
    render free_user fuel n = Some out ->
    render free_user (S fuel) n = Some out.
Proof.
  induction fuel as [|fuel IH]; intros n out; [discriminate|].
  remember (S fuel) as f eqn:Ef.
  rewrite Ef at 1. simpl.
  destruct n; try (subst f; exact (fun H => H));
    try (apply with_children_more, render_all_more; subst f; exact IH);
    try (subst f; apply IH).
  - destruct (ActivityUser user rest); [subst f; apply IH | easy].
  - destruct (ActivityTimelineAction free_user props); [subst f; apply IH | easy].
  - destruct (ActivityTimelineComment props onDelete); [subst f; apply IH | easy].
Qed.

Lemma render_mono (fuel fuel' : nat) n out :
  fuel <= fuel' ->
  render free_user fuel n = Some out ->
  render free_user fuel' n = Some out.
Proof.
  induction 1 as [|m _ IH]; [easy|].
  intros H. apply render_S, IH, H.
Qed.

Lemma render_all_mono fuel fuel' l out :
  fuel <= fuel' ->
  render_all (render free_user fuel) l = Some out ->
  render_all (render free_user fuel') l = Some out.
Proof.
  intros H. apply render_all_more. intros n o. now apply render_mono.
Qed.

(** An element has one outcome. *)
Lemma renders_unique n out1 out2 :
  renders free_user n out1 -> renders free_user n out2 -> out1 = out2.
Proof.
  intros [f1 H1] [f2 H2].
  apply (render_mono f1 (f1 + f2)) in H1; [|lia].
  apply (render_mono f2 (f1 + f2)) in H2; [|lia].
  congruence.
Qed.

(** ** Rendering, one element at a time *)

(** The equations of [render] as facts about [renders]: an element of an
    imported component renders its children in order, an element of a
    component of this file renders what the component returns. *)

Lemma renders_undefined : renders free_user NUndefined (Ok NUndefined).
Proof. now exists 1. Qed.

Lemma renders_text s : renders free_user (NText s) (Ok (NText s)).
Proof. now exists 1. Qed.

Lemma renders_child v : renders free_user (child v) (Ok (child v)).
Proof. destruct v; [apply renders_text | apply renders_undefined]. Qed.

Lemma renders_all_nil : renders_all free_user [] (Ok []).
Proof. now exists 0. Qed.

Lemma renders_all_cons n l t ts :
  renders free_user n (Ok t) -> renders_all free_user l (Ok ts) ->
  renders_all free_user (n :: l) (Ok (t :: ts)).
Proof.
  intros [f1 H1] [f2 H2]. exists (f1 + f2). simpl.
  rewrite (render_mono f1 (f1 + f2) _ _ ltac:(lia) H1).
  now rewrite (render_all_mono f2 (f1 + f2) _ _ ltac:(lia) H2).
Qed.

Lemma renders_all_throws n l e :
  renders free_user n (Throw e) -> renders_all free_user (n :: l) (Throw e).
Proof. intros [f H]. exists f. simpl. now rewrite H. Qed.

Lemma renders_all_later n l t e :
  renders free_user n (Ok t) -> renders_all free_user l (Throw e) ->
  renders_all free_user (n :: l) (Throw e).
Proof.
  intros [f1 H1] [f2 H2]. exists (f1 + f2). simpl.
  rewrite (render_mono f1 (f1 + f2) _ _ ltac:(lia) H1).
  now rewrite (render_all_mono f2 (f1 + f2) _ _ ltac:(lia) H2).
Qed.

Lemma renders_host name attrs l ts :
  renders_all free_user l (Ok ts) ->
  renders free_user (NHost name attrs l) (Ok (NHost name attrs ts)).
Proof. intros [f H]. exists (S f). simpl. now rewrite H. Qed.

Lemma renders_host_throws name attrs l e :
  renders_all free_user l (Throw e) ->
  renders free_user (NHost name attrs l) (Throw e).
Proof. intros [f H]. exists (S f). simpl. now rewrite H. Qed.

Lemma renders_tooltip label l ts :
  renders_all free_user l (Ok ts) ->
  renders free_user (NTooltip label l) (Ok (NTooltip label ts)).
Proof. intros [f H]. exists (S f). simpl. now rewrite H. Qed.

Lemma renders_tooltip_throws label l e :
  renders_all free_user l (Throw e) ->
  renders free_user (NTooltip label l) (Throw e).
Proof. intros [f H]. exists (S f). simpl. now rewrite H. Qed.

Lemma renders_arr l ts :
  renders_all free_user l (Ok ts) -> renders free_user (NArr l) (Ok (NArr ts)).
Proof. intros [f H]. exists (S f). simpl. now rewrite H. Qed.

Lemma renders_arr_throws l e :
  renders_all free_user l (Throw e) -> renders free_user (NArr l) (Throw e).
Proof. intros [f H]. exists (S f). simpl. now rewrite H. Qed.

Lemma renders_item id icon off l out :
  renders free_user (ActivityTimelineItem id icon off l) out ->
  renders free_user (NItem id icon off l) out.
Proof. intros [f H]. now exists (S f). Qed.

Lemma renders_activityText attrs l out :
  renders free_user (ActivityText attrs l) out ->
  renders free_user (NActivityText attrs l) out.
Proof. intros [f H]. now exists (S f). Qed.

Lemma renders_date d out :
  renders free_user (ActivityTimelineDate d) out -> renders free_user (NDate d) out.
Proof. intros [f H]. now exists (S f). Qed.

Lemma renders_link h attrs l out :
  renders free_user (ActivityLink h attrs l) out ->
  renders free_user (NLink h attrs l) out.
Proof. intros [f H]. now exists (S f). Qed.

Lemma renders_user u rest t out :
  ActivityUser u rest = Ok t -> renders free_user t out ->
  renders free_user (NUser u rest) out.
Proof. intros E [f H]. exists (S f). simpl. now rewrite E. Qed.

Lemma renders_user_throws u rest e :
  ActivityUser u rest = Throw e -> renders free_user (NUser u rest) (Throw e).
Proof. intros E. exists 1. simpl. now rewrite E. Qed.

Lemma UpdateIcon_cases data :
  UpdateIcon data = NHost "StatusBadge" [("color", AOpt (Data.value data))] [] \/
  UpdateIcon data = NHost "TimelineDot" [] [].
Proof.
  unfold UpdateIcon.
  destruct (Data.field data) as [f|]; [destruct (f =? "status")|]; auto.
Qed.

Lemma renders_updateIcon data :
  renders free_user (NUpdateIcon data) (Ok (UpdateIcon data)).
Proof.
  exists 2.
  change (render free_user 1 (UpdateIcon data) = Some (Ok (UpdateIcon data))).
  destruct (UpdateIcon_cases data) as [-> | ->]; reflexivity.
Qed.

Lemma renders_action key props t out :
  ActivityTimelineAction free_user props = Ok t -> renders free_user t out ->
  renders free_user (NAction key props) out.
Proof. intros E [f H]. exists (S f). simpl. now rewrite E. Qed.

Lemma renders_action_throws key props e :
  ActivityTimelineAction free_user props = Throw e ->
  renders free_user (NAction key props) (Throw e).
Proof. intros E. exists 1. simpl. now rewrite E. Qed.

Lemma renders_comment key props onDelete t out :
  ActivityTimelineComment props onDelete = Ok t -> renders free_user t out ->
  renders free_user (NComment key props onDelete) out.
Proof. intros E [f H]. exists (S f). simpl. now rewrite E. Qed.

Lemma renders_comment_throws key props onDelete e :
  ActivityTimelineComment props onDelete = Throw e ->
  renders free_user (NComment key props onDelete) (Throw e).
Proof. intros E. exists 1. simpl. now rewrite E. Qed.

Lemma renders_update key props out :
  renders free_user (ActivityTimelineUpdate props) out ->
  renders free_user (NUpdate key props) out.
Proof. intros [f H]. now exists (S f). Qed.

Lemma renders_addComment user onSubmit out :
  renders free_user (ActivityTimelineAddComment user onSubmit) out ->
  renders free_user (NAddComment user onSubmit) out.
Proof. intros [f H]. now exists (S f). Qed.

End RenderFacts.

Create HintDb render.
#[export] Hint Resolve renders_undefined renders_text renders_child
  renders_all_nil renders_all_cons renders_host renders_tooltip renders_arr
  renders_updateIcon : render.
#[export] Hint Resolve renders_all_throws renders_all_later renders_host_throws
  renders_tooltip_throws renders_arr_throws renders_user_throws : render.
#[export] Hint Extern 1 (renders _ (NItem _ _ _ _) _) =>
  apply renders_item; unfold ActivityTimelineItem : render.
#[export] Hint Extern 1 (renders _ (NActivityText _ _) _) =>
  apply renders_activityText; unfold ActivityText : render.
#[export] Hint Extern 1 (renders _ (NDate _) _) =>
  apply renders_date; unfold ActivityTimelineDate : render.
#[export] Hint Extern 1 (renders _ (NLink _ _ _) _) =>
  apply renders_link; unfold ActivityLink : render.
#[export] Hint Extern 1 (renders _ (NUpdate _ _) _) =>
  apply renders_update; unfold ActivityTimelineUpdate : render.
#[export] Hint Extern 1 (renders _ (NAddComment _ _) _) =>
  apply renders_addComment; unfold ActivityTimelineAddComment : render.
#[export] Hint Extern 1 (renders _ (NUser (Some _) _) _) =>
  eapply renders_user; [reflexivity|] : render.
#[export] Hint Extern 1 (ActivityUser None _ = Throw _) => reflexivity : render.
#[export] Hint Extern 1 (renders None (NAction _ _) (Throw _)) =>
  apply renders_action_throws; reflexivity : render.

Lemma append_empty_r (s : string) : s ++ "" = s.
Proof. induction s as [|c s IH]; simpl; [reflexivity | now rewrite IH]. Qed.

(** ** The feed sequencer *)

Lemma flat_dispatch onDelete a :
  flat (dispatch onDelete a) = [] \/
  flat (dispatch onDelete a) = [dispatch onDelete a] /\
  isComposer (dispatch onDelete a) = false.
Proof.
  unfold dispatch.
  destruct (Activity.type a =? "action"); [right; easy|].
  destruct (Activity.type a =? "comment"); [right; easy|].
  destruct (Activity.type a =? "update"); [right; easy|].
  left; reflexivity.
Qed.

Lemma dispatched_no_composer onDelete (l : list Activity.t) :
  filter isComposer (toArray (map (dispatch onDelete) l)) = [].
Proof.
  unfold toArray.
  induction l as [|a l IH]; simpl; [reflexivity|].
  rewrite filter_app, IH, app_nil_r.
  destruct (flat_dispatch onDelete a) as [-> | [-> Hc]]; simpl;
    [reflexivity | now rewrite Hc].
Qed.

Lemma slots_ActivityTimeline props :
  slots (ActivityTimeline props) = (dispatched props ++ [composer props])%list.
Proof.
  unfold slots, ActivityTimeline, dispatched, walked, composer, toArray.
  destruct (activities props) as [l|]; simpl; reflexivity.
Qed.

Lemma recognizedb_spec type : recognizedb type = true <-> recognized type.
Proof.
  unfold recognizedb, recognized.
  rewrite !orb_true_iff, !String.eqb_eq. tauto.
Qed.

(** One element for each activity of a recognized kind, keyed by its [id],
    in the order of the feed. *)
Lemma dispatched_keys onDelete (l : list Activity.t) :
  map key_of (toArray (map (dispatch onDelete) l)) =
  map (fun a => Some (Activity.id a))
    (filter (fun a => recognizedb (Activity.type a)) l).
Proof.
  unfold toArray.
  induction l as [|a l IH]; simpl; [reflexivity|].
  rewrite map_app, IH. unfold dispatch, recognizedb.
  destruct (Activity.type a =? "action"); [reflexivity|].
  destruct (Activity.type a =? "comment"); [reflexivity|].
  destruct (Activity.type a =? "update"); reflexivity.
Qed.

(** The sequencer by itself: for every [activities] sequence, the empty one
    and the undefined one included, the items [ActivityTimeline] returns are
    the dispatched
    activity elements, one per activity of a recognized kind and in feed
    order, followed by the composer; the composer occurs exactly once among
    them and is the last item. *)
Theorem composer_once_and_last (props : ActivityTimelineProps) :
  slots (ActivityTimeline props) = (dispatched props ++ [composer props])%list
  /\ map key_of (dispatched props) =
     map (fun a => Some (Activity.id a))
       (filter (fun a => recognizedb (Activity.type a)) (walked props))
  /\ length (filter isComposer (slots (ActivityTimeline props))) = 1
  /\ last (slots (ActivityTimeline props)) NUndefined = composer props.
Proof.
  rewrite slots_ActivityTimeline. split; [reflexivity|]. split; [|split].
  - apply dispatched_keys.
  - unfold dispatched. rewrite filter_app, dispatched_no_composer. reflexivity.
  - apply last_last.
Qed.

(** The dispatched elements keep the order of the feed. *)
Lemma dispatched_cons props a l :
  activities props = Some (a :: l) ->
  dispatched props =
    (flat (dispatch (onDeleteComment props) a)
     ++ toArray (map (dispatch (onDeleteComment props)) l))%list.
Proof.
  intros H. unfold dispatched, walked. rewrite H. reflexivity.
Qed.

Lemma composer_renders free_user user onSubmit :
  exists c, renders free_user (NAddComment user onSubmit) (Ok c).
Proof. eexists. eauto 80 with render. Qed.

(** Once every dispatched element renders, so does the feed, with the
    composer after them. *)
Lemma feed_renders free_user props l ts :
  activities props = Some l ->
  renders_all free_user (map (dispatch (onDeleteComment props)) l) (Ok ts) ->
  exists c,
    renders free_user (composer props) (Ok c)
    /\ renders free_user (ActivityTimeline props)
         (Ok (NHost "Timeline" []
                [NHost "AnimatePresence" [("initial", ABool false)]
                   [NArr ts; c]])).
Proof.
  intros Hl Hts.
  destruct (composer_renders free_user (currentUser props) (onAddComment props))
    as [c Hc].
  exists c. split; [exact Hc|].
  unfold ActivityTimeline. rewrite Hl.
  auto 10 with render.
Qed.

(** ** Renderer dispatch *)

Lemma dispatch_default onDelete a :
  ~ recognized (Activity.type a) -> dispatch onDelete a = NUndefined.
Proof.
  intros H. unfold dispatch, recognized in *.
  destruct (String.eqb_spec (Activity.type a) "action"); [tauto|].
  destruct (String.eqb_spec (Activity.type a) "comment"); [tauto|].
  destruct (String.eqb_spec (Activity.type a) "update"); [tauto|].
  reflexivity.
Qed.

(** C2. For a record whose [type] is none of action, comment and update,
    dispatch returns undefined: the record leaves no element in the feed,
    and rendering what dispatch returned ends normally with nothing. *)
Theorem dispatch_unrecognized (free_user : option User.t)
    (onDelete : option Callback) (a : Activity.t) :
  ~ recognized (Activity.type a) ->
  dispatch onDelete a = NUndefined
  /\ toArray [dispatch onDelete a] = []
  /\ renders free_user (dispatch onDelete a) (Ok NUndefined).
Proof.
  intros H. rewrite (dispatch_default _ _ H).
  repeat split. apply renders_undefined.
Qed.

Lemma dispatch_unrecognized_witness :
  ~ recognized (Activity.type mention)
  /\ dispatch None mention = NUndefined
  /\ toArray [dispatch None mention] = []
  /\ renders None (dispatch None mention) (Ok NUndefined).
Proof.
  assert (H : ~ recognized (Activity.type mention)).
  { unfold recognized; simpl. intros [H | [H | H]]; discriminate H. }
  split; [exact H|].
  exact (dispatch_unrecognized None None mention H).
Defined.

(** An unrecognized record changes nothing around it in the feed. *)
Lemma unrecognized_skipped onDelete (pre post : list Activity.t) a :
  ~ recognized (Activity.type a) ->
  toArray (map (dispatch onDelete) (pre ++ a :: post)) =
  toArray (map (dispatch onDelete) (pre ++ post)).
Proof.
  intros H. unfold toArray.
  rewrite !map_app, !flat_map_app. simpl.
  now rewrite (dispatch_default _ _ H).
Qed.

(** C10. When [activities] is undefined, [ActivityTimeline] returns the
    composer as its only item, and the feed renders without throwing. *)
Theorem undefined_activities (free_user : option User.t)
    (props : ActivityTimelineProps) :
  activities props = None ->
  slots (ActivityTimeline props) = [composer props]
  /\ exists c,
       renders free_user (composer props) (Ok c)
       /\ renders free_user (ActivityTimeline props)
            (Ok (NHost "Timeline" []
                   [NHost "AnimatePresence" [("initial", ABool false)]
                      [NUndefined; c]])).
Proof.
  intros H. split.
  - rewrite slots_ActivityTimeline. unfold dispatched, walked. now rewrite H.
  - destruct (composer_renders free_user (currentUser props) (onAddComment props))
      as [c Hc].
    exists c. split; [exact Hc|].
    unfold ActivityTimeline. rewrite H.
    auto 10 with render.
Qed.

Lemma undefined_activities_witness :
  activities no_feed = None
  /\ slots (ActivityTimeline no_feed) = [composer no_feed].
Proof.
  split; [reflexivity|].
  exact (proj1 (undefined_activities None no_feed eq_refl)).
Defined.

(** ** Item renderers *)

Section Items.

Variable free_user : option User.t.

Lemma comment_throws key props onDelete :
  Activity.users props = None ->
  renders free_user (NComment key props onDelete) (Throw (TypeError "avatar")).
Proof.
  intros Hu. apply renders_comment_throws.
  unfold ActivityTimelineComment. now rewrite Hu.
Qed.

Lemma update_throws key props :
  Activity.users props = None ->
  renders free_user (NUpdate key props) (Throw (TypeError "name")).
Proof.
  intros Hu. apply renders_update. unfold ActivityTimelineUpdate. rewrite Hu.
  eauto 60 with render.
Qed.

Lemma action_renders key props user u :
  free_user = Some user -> Activity.users props = Some u ->
  exists t,
    renders free_user (NAction key props) (Ok t)
    /\ anchor t = Some ("action-" ++ Activity.id props)
    /\ links t = [Some ("#action-" ++ Activity.id props)]
    /\ sentence t = Some (shown (displayName u) ++ " created the contact.").
Proof.
  intros Hf Hu. eexists. split.
  - eapply renders_action.
    + unfold ActivityTimelineAction. rewrite Hf. reflexivity.
    + rewrite Hu. eauto 60 with render.
  - unfold displayName.
    destruct (js_or (js_or (User.name u) (User.email u)) (User.id u));
      cbv -[append]; rewrite ?append_empty_r; repeat split.
Qed.

Lemma update_renders key props u :
  Activity.users props = Some u ->
  exists t,
    renders free_user (NUpdate key props) (Ok t)
    /\ anchor t = Some ("update-" ++ Activity.id props)
    /\ links t = [Some ("#update-" ++ Activity.id props)]
    /\ sentence t =
       Some (shown (displayName u) ++ " changed "
             ++ shown (Data.field (Activity.data props)) ++ " to "
             ++ shown (Data.value (Activity.data props))
             ++ shown (js_and (Data.oldValue (Activity.data props))
                         (fun o => " from " ++ o))
             ++ ".").
Proof.
  intros Hu. eexists. split.
  - apply renders_update. unfold ActivityTimelineUpdate. rewrite Hu.
    eauto 60 with render.
  - unfold displayName.
    destruct (js_or (js_or (User.name u) (User.email u)) (User.id u));
      destruct (UpdateIcon_cases (Activity.data props)) as [-> | ->];
      destruct (Data.field (Activity.data props));
      destruct (Data.value (Activity.data props));
      destruct (Data.oldValue (Activity.data props)) as [[|c o]|];
      cbv -[append]; rewrite ?append_empty_r; repeat split.
Qed.

Lemma comment_renders key props onDelete u :
  Activity.users props = Some u ->
  exists t,
    renders free_user (NComment key props onDelete) (Ok t)
    /\ anchor t = Some ("comment-" ++ Activity.id props)
    /\ links t = [Some ("#action-" ++ Activity.id props)]
    /\ menu t = [("Delete", Some (DeleteClick (Activity.id props) onDelete))].
Proof.
  intros Hu. eexists. split.
  - eapply renders_comment.
    + unfold ActivityTimelineComment. rewrite Hu. reflexivity.
    + eauto 80 with render.
  - unfold displayName.
    destruct (js_or (js_or (User.name u) (User.email u)) (User.id u));
      cbv -[append]; repeat split.
Qed.

(** An item that renders has its author under [users]. *)
Lemma rendered_update_has_users key props t :
  renders free_user (NUpdate key props) (Ok t) ->
  exists u, Activity.users props = Some u.
Proof.
  intros H. destruct (Activity.users props) as [u|] eqn:Hu; [eauto|].
  pose proof (renders_unique _ _ _ _ H (update_throws key props Hu)).
  discriminate.
Qed.

Lemma rendered_comment_has_users key props onDelete t :
  renders free_user (NComment key props onDelete) (Ok t) ->
  exists u, Activity.users props = Some u.
Proof.
  intros H. destruct (Activity.users props) as [u|] eqn:Hu; [eauto|].
  pose proof (renders_unique _ _ _ _ H (comment_throws key props onDelete Hu)).
  discriminate.
Qed.

End Items.

(** With [user] unbound, the action renderer throws on every record. *)
Lemma action_throws key props :
  renders None (NAction key props) (Throw (ReferenceError "user")).
Proof. now apply renders_action_throws. Qed.

(** C9. No action item is ever produced: the action renderer reads the
    unbound [user] whatever the record is.  On a record of the declared
    shape no comment or update item is produced either: the comment
    renderer reads [avatar] of the undefined [users], and the update renderer
    hands the undefined [users] to [ActivityUser], which reads its [name].
    So these records expose no anchor and no link. *)
Theorem item_renderers_throw (key : string) (props : Activity.t) (id : string)
    (user : User.t) (data : Data.t) (date : Date) (onDelete : option Callback) :
  renders None (NAction key props) (Throw (ReferenceError "user"))
  /\ renders None (dispatch onDelete (Activity.declared id user "action" data date))
       (Throw (ReferenceError "user"))
  /\ renders None (dispatch onDelete (Activity.declared id user "comment" data date))
       (Throw (TypeError "avatar"))
  /\ renders None (dispatch onDelete (Activity.declared id user "update" data date))
       (Throw (TypeError "name")).
Proof.
  repeat split.
  - apply action_throws.
  - apply action_throws.
  - now apply comment_throws.
  - now apply update_throws.
Qed.

(** C1. A feed whose first record is an action of the declared shape does
    not render: [ActivityTimeline] does return the composer element as its
    last item, but the render of the feed ends with the action renderer's
    ReferenceError, so nothing is produced, the composer slot included. *)
Theorem feed_with_action_throws (id : string) (user : User.t) (data : Data.t)
    (date : Date) (rest : list Activity.t) (currentUser : User.t)
    (onAddComment : Callback) (onDeleteComment : option Callback) :
  let props :=
    {| activities := Some (Activity.declared id user "action" data date :: rest);
       currentUser := currentUser; onAddComment := onAddComment;
       onDeleteComment := onDeleteComment |} in
  last (slots (ActivityTimeline props)) NUndefined = composer props
  /\ renders None (ActivityTimeline props) (Throw (ReferenceError "user"))
  /\ ~ (exists t, renders None (ActivityTimeline props) (Ok t)).
Proof.
  intros props.
  assert (H : renders None (ActivityTimeline props)
                (Throw (ReferenceError "user"))).
  { unfold ActivityTimeline, props. simpl.
    change (dispatch onDeleteComment
              (Activity.declared id user "action" data date))
      with (NAction id (Activity.declared id user "action" data date)).
    eauto 20 with render. }
  split; [|split; [exact H|]].
  - rewrite slots_ActivityTimeline. apply last_last.
  - intros [t Ht]. pose proof (renders_unique _ _ _ _ H Ht). discriminate.
Qed.

(** A feed holding one such record does not render at all. *)
Lemma feed_of_created_throws :
  renders None (ActivityTimeline feed_of_created) (Throw (ReferenceError "user")).
Proof.
  unfold ActivityTimeline, feed_of_created. simpl.
  change (dispatch None created) with (NAction "1" created).
  eauto 20 with render.
Qed.

(** What the renderers are written to produce, once [user] is bound and the
    author is found under [users]: the anchors and link targets by kind. *)
Lemma item_anchors (user u : User.t) (key : string) (props : Activity.t)
    (onDelete : option Callback) :
  Activity.users props = Some u ->
  (exists t, renders (Some user) (NAction key props) (Ok t)
     /\ anchor t = Some ("action-" ++ Activity.id props)
     /\ links t = [Some ("#action-" ++ Activity.id props)])
  /\ (exists t, renders (Some user) (NUpdate key props) (Ok t)
        /\ anchor t = Some ("update-" ++ Activity.id props)
        /\ links t = [Some ("#update-" ++ Activity.id props)])
  /\ (exists t, renders (Some user) (NComment key props onDelete) (Ok t)
        /\ anchor t = Some ("comment-" ++ Activity.id props)
        /\ links t = [Some ("#action-" ++ Activity.id props)]).
Proof.
  intros Hu. repeat split.
  - destruct (action_renders (Some user) key props user u eq_refl Hu)
      as (t & ? & ? & ? & _); eauto.
  - destruct (update_renders (Some user) key props u Hu) as (t & ? & ? & ? & _);
      eauto.
  - destruct (comment_renders (Some user) key props onDelete u Hu)
      as (t & ? & ? & ? & _); eauto.
Qed.

(** C6, as stated, fails: an update whose [oldValue] is present and empty
    renders with no "from" clause. *)
Lemma empty_oldValue_no_from :
  Data.oldValue (Activity.data (retitled (Some ""))) = Some ""
  /\ exists t,
       renders None (NUpdate "7" (retitled (Some ""))) (Ok t)
       /\ sentence t = Some "Ada changed title to Acme."
       /\ sentence t
          <> Some (claimed_sentence "Ada" (Activity.data (retitled (Some ""))))
       /\ sentence t
          <> Some (claimed_sentence "Ada" (Activity.data (retitled (Some "")))
                   ++ ".").
Proof.
  split; [reflexivity|].
  destruct (update_renders None "7" (retitled (Some "")) ada eq_refl)
    as (t & Ht & _ & _ & Hs).
  exists t. split; [exact Ht|].
  rewrite Hs. vm_compute. repeat split; discriminate.
Qed.

(** C6. For every update item that renders, the sentence is
    "<user> changed <field> to <value> from <oldValue>." when [oldValue] is
    a non-empty string, and "<user> changed <field> to <value>." when
    [oldValue] is absent or empty; <user> is the author's name, else email,
    else id. *)
Theorem update_sentence (free_user : option User.t) (key : string)
    (props : Activity.t) (t : Node) :
  renders free_user (NUpdate key props) (Ok t) ->
  exists u,
    Activity.users props = Some u
    /\ (forall o,
          Data.oldValue (Activity.data props) = Some o -> o <> "" ->
          sentence t =
          Some (shown (displayName u) ++ " changed "
                ++ shown (Data.field (Activity.data props)) ++ " to "
                ++ shown (Data.value (Activity.data props))
                ++ " from " ++ o ++ "."))
    /\ (Data.oldValue (Activity.data props) = None
        \/ Data.oldValue (Activity.data props) = Some "" ->
        sentence t =
        Some (shown (displayName u) ++ " changed "
              ++ shown (Data.field (Activity.data props)) ++ " to "
              ++ shown (Data.value (Activity.data props)) ++ ".")).
Proof.
  intros H.
  destruct (rendered_update_has_users _ _ _ _ H) as [u Hu].
  exists u. split; [exact Hu|].
  destruct (update_renders free_user key props u Hu) as (t' & Ht' & _ & _ & Hs).
  pose proof (renders_unique _ _ _ _ H Ht') as E. injection E as ->.
  rewrite Hs. split.
  - intros o -> Ho. simpl.
    destruct (String.eqb_spec o ""); [contradiction|].
    simpl. reflexivity.
  - intros [-> | ->]; reflexivity.
Qed.

Lemma update_sentence_witness :
  renders None (NUpdate "7" (retitled (Some "Old Co"))) (Ok retitled_item)
  /\ sentence retitled_item = Some "Ada changed title to Acme from Old Co.".
Proof.
  assert (H : renders None (NUpdate "7" (retitled (Some "Old Co")))
                (Ok retitled_item)).
  { exists 24. vm_compute. reflexivity. }
  split; [exact H|].
  destruct (update_sentence None "7" (retitled (Some "Old Co")) retitled_item H)
    as (u & Hu & Hfrom & _).
  injection Hu as <-.
  exact (Hfrom "Old Co" eq_refl ltac:(discriminate)).
Defined.

(** ** Comment deletion *)

Lemma calls_click h w : calls (click h w) = calls w.
Proof. destruct h; reflexivity. Qed.

Lemma calls_call_optional f id w :
  calls (call_optional f id w) =
  (calls w ++ match f with Some f => [CallDelete f id] | None => [] end)%list.
Proof. destruct f; simpl; [reflexivity | now rewrite app_nil_r]. Qed.

Lemma delete_click_confirm id onDelete w :
  calls (run [Click (DeleteClick id onDelete); Confirm] w) =
  (calls w ++ match onDelete with Some f => [CallDelete f id] | None => [] end)%list.
Proof. simpl. now rewrite calls_call_optional. Qed.

Lemma delete_click_cancel id onDelete w :
  run [Click (DeleteClick id onDelete); Cancel] w = w.
Proof. destruct w; reflexivity. Qed.

(** Whatever happens on the page, a delete call is made only by a
    confirmation: there are never more of them than [Confirm] events. *)
Lemma delete_calls_step e w :
  length (filter isDelete (calls (step e w))) <=
  length (filter isDelete (calls w)) + (if isConfirm e then 1 else 0).
Proof.
  destruct e as [h| | |d|h|h key metaKey|i|i]; simpl.
  - rewrite calls_click. lia.
  - destruct (prompts w) as [|p rest]; [lia|].
    rewrite calls_call_optional. simpl.
    rewrite filter_app, length_app.
    destruct (fst (onConfirm p)); simpl; lia.
  - destruct (prompts w); simpl; lia.
  - lia.
  - destruct h; simpl; try lia.
    rewrite filter_app, length_app. simpl. lia.
  - destruct h; simpl; try lia.
    destruct ((key =? "Enter") && metaKey && submitRef w); simpl; [|lia].
    rewrite filter_app, length_app. simpl. lia.
  - destruct (i <? length (awaiting w))%nat; [|lia].
    unfold Form_onSubmit_resume. simpl. destruct (formRef w); simpl; lia.
  - destruct (i <? length (awaiting w))%nat; simpl; lia.
Qed.

Lemma delete_calls_bounded (es : list Event) :
  forall w,
    length (filter isDelete (calls (run es w))) <=
    length (filter isDelete (calls w)) + length (filter isConfirm es).
Proof.
  induction es as [|e es IH]; intros w; simpl; [lia|].
  specialize (IH (step e w)).
  pose proof (delete_calls_step e w).
  destruct (isConfirm e); simpl; lia.
Qed.

Lemma dispatch_comment onDelete a :
  Activity.type a = "comment" ->
  dispatch onDelete a = NComment (Activity.id a) a onDelete.
Proof.
  intros H. unfold dispatch. rewrite H. reflexivity.
Qed.

Lemma comment_in_slots props l a :
  activities props = Some l -> In a l -> Activity.type a = "comment" ->
  In (dispatch (onDeleteComment props) a) (slots (ActivityTimeline props)).
Proof.
  intros Hl Ha Ht. rewrite slots_ActivityTimeline. apply in_or_app. left.
  unfold dispatched, walked, toArray. rewrite Hl.
  apply in_flat_map. exists (dispatch (onDeleteComment props) a).
  split; [now apply in_map|].
  rewrite (dispatch_comment _ _ Ht). now left.
Qed.

(** C4. For every comment record of a feed given an [onDeleteComment]: its
    element is among the items of the feed, and on the item it renders to
    the Delete entry only opens the confirmation: selecting it calls
    nothing, dismissing the confirmation calls nothing, and confirming it
    calls the feed's [onDeleteComment] once, with the [id] of that comment;
    over any sequence of events there are no more delete calls than
    confirmations. *)
Theorem delete_needs_confirmation (free_user : option User.t)
    (props : ActivityTimelineProps) (l : list Activity.t) (a : Activity.t)
    (f : Callback) (t : Node) (w : World) :
  activities props = Some l -> In a l -> Activity.type a = "comment" ->
  onDeleteComment props = Some f ->
  renders free_user (dispatch (onDeleteComment props) a) (Ok t) ->
  In (dispatch (onDeleteComment props) a) (slots (ActivityTimeline props))
  /\ exists h,
       menu t = [("Delete", Some h)]
       /\ calls (step (Click h) w) = calls w
       /\ calls (run [Click h; Cancel] w) = calls w
       /\ calls (run [Click h; Confirm] w) =
          (calls w ++ [CallDelete f (Activity.id a)])%list
       /\ forall es,
            length (filter isDelete (calls (run es w))) <=
            length (filter isDelete (calls w)) + length (filter isConfirm es).
Proof.
  intros Hl Ha Ht Hf H.
  split; [exact (comment_in_slots props l a Hl Ha Ht)|].
  rewrite (dispatch_comment _ _ Ht), Hf in H.
  destruct (rendered_comment_has_users _ _ _ _ _ H) as [u Hu].
  destruct (comment_renders free_user (Activity.id a) a (Some f) u Hu)
    as (t' & Ht' & _ & _ & Hm).
  pose proof (renders_unique _ _ _ _ H Ht') as E. injection E as ->.
  exists (DeleteClick (Activity.id a) (Some f)).
  split; [exact Hm|]. split; [reflexivity|]. split; [|split].
  - now rewrite delete_click_cancel.
  - apply delete_click_confirm.
  - intros es. apply delete_calls_bounded.
Qed.

Lemma delete_needs_confirmation_witness :
  renders None (dispatch (onDeleteComment feed_with_delete) remark)
    (Ok remark_item)
  /\ In (dispatch (onDeleteComment feed_with_delete) remark)
        (slots (ActivityTimeline feed_with_delete))
  /\ exists h,
       menu remark_item = [("Delete", Some h)]
       /\ calls (run [Click h; Confirm] (mounted emptyDraft)) =
          [CallDelete (Fn "deleteComment") "9"].
Proof.
  assert (H : renders None (dispatch (onDeleteComment feed_with_delete) remark)
                (Ok remark_item)).
  { exists 24. vm_compute. reflexivity. }
  split; [exact H|].
  destruct (delete_needs_confirmation None feed_with_delete [remark] remark
              (Fn "deleteComment") remark_item (mounted emptyDraft)
              eq_refl (or_introl eq_refl) eq_refl eq_refl H)
    as (Hin & h & Hm & _ & _ & Hc & _).
  split; [exact Hin|].
  exists h. split; [exact Hm | exact Hc].
Defined.

(** C8, as stated, fails: with no [onDeleteComment], the comment item of the
    feed still offers Delete. *)
Lemma delete_offered_without_callback :
  onDeleteComment feed_without_delete = None
  /\ exists item t,
       In item (slots (ActivityTimeline feed_without_delete))
       /\ renders None item (Ok t)
       /\ menu t = [("Delete", Some (DeleteClick "9" None))].
Proof.
  split; [reflexivity|].
  exists (NComment "9" remark None).
  destruct (comment_renders None "9" remark None ada eq_refl)
    as (t & Ht & _ & _ & Hm).
  exists t. split; [left; reflexivity|]. split; [exact Ht | exact Hm].
Qed.

(** C8. A comment item that renders offers exactly one action, Delete,
    whether or not [onDeleteComment] is supplied; when it is not supplied,
    selecting Delete and confirming calls nothing. *)
Theorem delete_offered_regardless (free_user : option User.t) (key : string)
    (props : Activity.t) (onDelete : option Callback) (t : Node) :
  renders free_user (NComment key props onDelete) (Ok t) ->
  menu t = [("Delete", Some (DeleteClick (Activity.id props) onDelete))]
  /\ (onDelete = None ->
      forall w,
        calls (run [Click (DeleteClick (Activity.id props) onDelete); Confirm] w)
        = calls w).
Proof.
  intros H.
  destruct (rendered_comment_has_users _ _ _ _ _ H) as [u Hu].
  destruct (comment_renders free_user key props onDelete u Hu)
    as (t' & Ht' & _ & _ & Hm).
  pose proof (renders_unique _ _ _ _ H Ht') as E. injection E as ->.
  split; [exact Hm|].
  intros -> w. rewrite delete_click_confirm. apply app_nil_r.
Qed.

Lemma delete_offered_regardless_witness :
  renders None (NComment "9" remark None) (Ok remark_item_without_delete)
  /\ menu remark_item_without_delete = [("Delete", Some (DeleteClick "9" None))].
Proof.
  assert (H : renders None (NComment "9" remark None)
                (Ok remark_item_without_delete)).
  { exists 24. vm_compute. reflexivity. }
  split; [exact H|].
  exact (proj1 (delete_offered_regardless None "9" remark None _ H)).
Defined.

(** ** The composer *)

(** When the awaited promise resolves, the form is reset. *)
Lemma resolve_clears i w :
  i < length (awaiting w) -> formRef w = true ->
  values (step (Resolve i) w) = emptyDraft.
Proof.
  intros Hi Hf. simpl.
  apply Nat.ltb_lt in Hi. rewrite Hi.
  unfold Form_onSubmit_resume. simpl. now rewrite Hf.
Qed.

(** When it rejects, the handler ends there: the draft is not touched. *)
Lemma reject_keeps i w : values (step (Reject i) w) = values w.
Proof. simpl. now destruct (i <? length (awaiting w))%nat. Qed.

(** C3. After a submission whose [onAddComment] promise resolves, the draft
    is the empty draft, text and attachments; after one whose promise
    rejects, the draft is what it was when submitted. *)
Theorem draft_after_submission (onSubmit : Callback) (w : World) :
  formRef w = true ->
  let submitted := step (Submit (FormSubmit onSubmit)) w in
  let i := length (awaiting w) in
  values (step (Resolve i) submitted) = emptyDraft
  /\ values (step (Reject i) submitted) = values w.
Proof.
  intros Hf submitted i. split.
  - apply resolve_clears; [|exact Hf].
    subst submitted i. simpl. rewrite length_app. simpl. lia.
  - now rewrite reject_keeps.
Qed.

Lemma draft_after_submission_witness :
  formRef (mounted hello) = true
  /\ values (run [Submit (FormSubmit (Fn "addComment")); Resolve 0] (mounted hello))
     = emptyDraft
  /\ values (run [Submit (FormSubmit (Fn "addComment")); Reject 0] (mounted hello))
     = hello.
Proof.
  split; [reflexivity|].
  exact (draft_after_submission (Fn "addComment") (mounted hello) eq_refl).
Defined.

(** The handler has no guard of its own: when the form delivers a second
    submission while the first is still awaited, [onAddComment] is called
    again. *)
Lemma second_submit_calls_again :
  awaiting (run [Submit (FormSubmit (Fn "addComment"))] (mounted hello)) = [hello]
  /\ calls (run [Submit (FormSubmit (Fn "addComment"));
                 Submit (FormSubmit (Fn "addComment"))] (mounted hello)) =
     [CallSubmit (Fn "addComment") hello; CallSubmit (Fn "addComment") hello].
Proof. split; reflexivity. Qed.

Lemma submit_calls_step e w :
  length (filter isSubmit (calls (step e w))) =
  length (filter isSubmit (calls w)) + (if submits e w then 1 else 0).
Proof.
  destruct e as [h| | |d|h|h key metaKey|i|i]; simpl.
  - rewrite calls_click. lia.
  - destruct (prompts w) as [|p rest]; [lia|].
    rewrite calls_call_optional. simpl.
    rewrite filter_app, length_app.
    destruct (fst (onConfirm p)); simpl; lia.
  - destruct (prompts w); simpl; lia.
  - lia.
  - destruct h; simpl; try lia.
    rewrite filter_app, length_app. simpl. lia.
  - destruct h; simpl; try lia.
    destruct ((key =? "Enter") && metaKey && submitRef w); simpl; [|lia].
    rewrite filter_app, length_app. simpl. lia.
  - destruct (i <? length (awaiting w))%nat; [|lia].
    unfold Form_onSubmit_resume. simpl. destruct (formRef w); simpl; lia.
  - destruct (i <? length (awaiting w))%nat; simpl; lia.
Qed.

(** Every submission the form delivers to the composer's handler calls
    [onAddComment] exactly once, whether or not an earlier call is still
    awaited: over any sequence of events, the number of [onAddComment] calls
    grows by the number of submissions. *)
Theorem one_call_per_submission (es : list Event) :
  forall w,
    length (filter isSubmit (calls (run es w))) =
    length (filter isSubmit (calls w)) + submissions es w.
Proof.
  induction es as [|e es IH]; intros w; simpl; [lia|].
  rewrite IH, submit_calls_step. lia.
Qed.

(** C7, as stated, fails: submitting an empty draft, or one of spaces,
    calls [onAddComment] with it. *)
Lemma blank_draft_is_submitted :
  blank (Comment.comment emptyDraft) = true
  /\ blank (Comment.comment spaces) = true
  /\ calls (run [Submit (FormSubmit (Fn "addComment"))] (mounted emptyDraft))
     = [CallSubmit (Fn "addComment") emptyDraft]
  /\ calls (run [KeyDown (EditorKeyDown (Fn "addComment")) "Enter" true]
              (mounted spaces))
     = [CallSubmit (Fn "addComment") spaces].
Proof. repeat split. Qed.

(** C7. The submit handler does not look at the draft: for every draft,
    blank or not, a submission calls [onAddComment] once with that draft and
    then awaits it, the draft unchanged. *)
Theorem submit_ignores_content (onSubmit : Callback) (w : World) :
  let submitted := step (Submit (FormSubmit onSubmit)) w in
  calls submitted = (calls w ++ [CallSubmit onSubmit (values w)])%list
  /\ awaiting submitted = (awaiting w ++ [values w])%list
  /\ values submitted = values w.
Proof. repeat split. Qed.

(** * Part III: further properties of the components *)

(** ** Attributes *)

Lemma attr_app name (a b : Attrs) :
  attr name (a ++ b)%list =
  match attr name b with
  | Some v => Some v
  | None => attr name a
  end.
Proof.
  induction a as [|[k v] a IH]; simpl.
  - now destruct (attr name b).
  - rewrite IH. now destruct (attr name b).
Qed.

Lemma truthy_false_missing v : truthy v = false <-> missing v.
Proof.
  unfold truthy, missing. destruct v as [s|].
  - rewrite negb_false_iff, String.eqb_eq. split.
    + intros ->. now right.
    + intros [H | H]; [discriminate | now injection H].
  - split; auto.
Qed.

(** The props given to [ActivityText] override its defaults, and the
    defaults are a span in the muted colour, nothing else. *)
Lemma ActivityText_props_override (name : string) (props : Attrs)
    (children : list Node) :
  attr name (attrsOf (ActivityText props children)) =
  match attr name props with
  | Some v => Some v
  | None =>
      if name =? "color" then Some (AStr "muted")
      else if name =? "as" then Some (AStr "span")
      else None
  end.
Proof.
  unfold ActivityText. cbn [attrsOf]. rewrite attr_app.
  destruct (attr name props); [reflexivity|].
  cbn [attr]. rewrite (String.eqb_sym "color"), (String.eqb_sym "as").
  destruct (name =? "color"); reflexivity.
Qed.

(** X1. Whatever props it is given, an [ActivityLink] keeps its own click
    handler: a click copies the link's target, or the empty string when the
    link has no target. *)
Theorem ActivityLink_click_is_copy (target : option string) (props : Attrs)
    (children : list Node) (w : World) :
  exists h,
    onClick (ActivityLink target props children) = Some h
    /\ clipboard (click h w) = Some (shown target)
    /\ snackbar (click h w) = (snackbar w ++ ["Link copied to clipboard"])%list
    /\ calls (click h w) = calls w
    /\ prompts (click h w) = prompts w
    /\ values (click h w) = values w.
Proof.
  eexists. split.
  - unfold ActivityLink, onClick. rewrite app_assoc, attr_app. reflexivity.
  - simpl. repeat split.
    destruct target as [[|c s]|]; reflexivity.
Qed.

(** ** The author's label *)

Lemma truthy_some n : n <> "" -> truthy (Some n) = true.
Proof.
  intros H. simpl. now destruct (String.eqb_spec n "").
Qed.

Lemma displayName_cases (u : User.t) :
  (forall n, User.name u = Some n -> n <> "" -> displayName u = Some n)
  /\ (missing (User.name u) ->
      forall e, User.email u = Some e -> e <> "" -> displayName u = Some e)
  /\ (missing (User.name u) -> missing (User.email u) ->
      displayName u = User.id u).
Proof.
  unfold displayName, js_or. repeat split.
  - intros n Hn Hne. rewrite Hn, !(truthy_some n Hne). reflexivity.
  - intros Hm e He Hne. apply truthy_false_missing in Hm.
    rewrite Hm, He, (truthy_some e Hne). reflexivity.
  - intros Hn He. apply truthy_false_missing in Hn, He. now rewrite Hn, He.
Qed.

Lemma user_renders fu u rest :
  exists t,
    renders fu (NUser (Some u) rest) (Ok t)
    /\ textContent t = shown (displayName u)
    /\ attrsOf t = attrsOf (ActivityText
                             ([("fontWeight", AStr "medium");
                               ("color", AStr "app-text")] ++ rest)%list []).
Proof.
  eexists. split; [eauto 20 with render|].
  unfold displayName.
  destruct (js_or (js_or (User.name u) (User.email u)) (User.id u));
    cbv -[append app]; rewrite ?append_empty_r; split; reflexivity.
Qed.

(** X2. [ActivityUser] shows the name; with the name missing or empty, the
    email; with both missing or empty, the id, and nothing when that is
    missing too.  The label is of medium weight and, unless the caller says
    otherwise, in the text colour rather than muted. *)
Theorem user_label (fu : option User.t) (u : User.t) (rest : Attrs) (t : Node) :
  renders fu (NUser (Some u) rest) (Ok t) ->
  (forall n, User.name u = Some n -> n <> "" -> textContent t = n)
  /\ (missing (User.name u) ->
      forall e, User.email u = Some e -> e <> "" -> textContent t = e)
  /\ (missing (User.name u) -> missing (User.email u) ->
      textContent t = shown (User.id u))
  /\ (attr "color" rest = None -> attr "color" (attrsOf t) = Some (AStr "app-text"))
  /\ (attr "fontWeight" rest = None ->
      attr "fontWeight" (attrsOf t) = Some (AStr "medium")).
Proof.
  intros H.
  destruct (user_renders fu u rest) as (t' & Ht' & Htext & Hattrs).
  pose proof (renders_unique _ _ _ _ H Ht') as E. injection E as ->.
  destruct (displayName_cases u) as (Hn & He & Hi).
  rewrite Htext, Hattrs. repeat split.
  - intros n Hu Hne. now rewrite (Hn n Hu Hne).
  - intros Hm e Hu Hne. now rewrite (He Hm e Hu Hne).
  - intros Hm Hm'. now rewrite (Hi Hm Hm').
  - intros Hr. rewrite ActivityText_props_override, attr_app, Hr. reflexivity.
  - intros Hr. rewrite ActivityText_props_override, attr_app, Hr. reflexivity.
Qed.

Lemma user_label_witness :
  renders None (NUser (Some nameless) []) (Ok nameless_label)
  /\ textContent nameless_label = "bo@example.com"
  /\ attr "color" (attrsOf nameless_label) = Some (AStr "app-text").
Proof.
  assert (H : renders None (NUser (Some nameless) []) (Ok nameless_label)).
  { exists 24. vm_compute. reflexivity. }
  split; [exact H|].
  destruct (user_label None nameless [] nameless_label H)
    as (_ & He & _ & Hc & _).
  split.
  - apply (He (or_intror eq_refl) "bo@example.com" eq_refl). discriminate.
  - apply Hc. reflexivity.
Defined.

(** ** Rendered items *)

Section ItemShapes.

Variable free_user : option User.t.

Lemma update_item_shape key props u :
  Activity.users props = Some u ->
  exists t,
    renders free_user (NUpdate key props) (Ok t)
    /\ icons t = [UpdateIcon (Activity.data props)]
    /\ linkHandlers t = [Some (LinkClick ("#update-" ++ Activity.id props))]
    /\ motion t = (Some collapsed, Some expanded, Some collapsed)
    /\ anchor t = Some ("update-" ++ Activity.id props)
    /\ links t = [Some ("#update-" ++ Activity.id props)].
Proof.
  intros Hu. eexists. split.
  - apply renders_update. unfold ActivityTimelineUpdate. rewrite Hu.
    eauto 60 with render.
  - destruct (js_or (js_or (User.name u) (User.email u)) (User.id u));
      destruct (UpdateIcon_cases (Activity.data props)) as [E | E]; rewrite !E;
      destruct (Data.field (Activity.data props));
      destruct (Data.value (Activity.data props));
      destruct (Data.oldValue (Activity.data props)) as [[|c o]|];
      vm_compute; repeat split.
Qed.

Lemma comment_item_shape key props onDelete u :
  Activity.users props = Some u ->
  exists t,
    renders free_user (NComment key props onDelete) (Ok t)
    /\ bodies t = [Some (AOpt (Data.comment (Activity.data props)))]
    /\ sentence t = Some (shown (displayName u))
    /\ avatars t =
       [[("src", AOpt (User.avatar u)); ("name", AOpt (User.name u));
         ("size", AStr "xs"); ("presence", AOpt (User.presence u))]]
    /\ linkHandlers t = [Some (LinkClick ("#action-" ++ Activity.id props))]
    /\ motion t = (Some collapsed, Some expanded, Some collapsed)
    /\ anchor t = Some ("comment-" ++ Activity.id props)
    /\ links t = [Some ("#action-" ++ Activity.id props)].
Proof.
  intros Hu. eexists. split.
  - eapply renders_comment.
    + unfold ActivityTimelineComment. rewrite Hu. reflexivity.
    + eauto 80 with render.
  - unfold displayName.
    destruct (js_or (js_or (User.name u) (User.email u)) (User.id u));
      repeat split; try (vm_compute; reflexivity);
      cbv -[append]; rewrite ?append_empty_r; reflexivity.
Qed.

Lemma composer_shape user onSubmit :
  exists c,
    renders free_user (NAddComment user onSubmit) (Ok c)
    /\ formHandlers c = [Some (AOn (FormSubmit onSubmit))]
    /\ editorHandlers c = [Some (AOn (EditorKeyDown onSubmit))]
    /\ avatars c =
       [[("src", AOpt (User.avatar user)); ("name", AOpt (User.name user));
         ("size", AStr "xs"); ("presence", AOpt (User.presence user))]]
    /\ motion c = (None, None, None)
    /\ anchor c = None
    /\ menu c = [].
Proof.
  eexists. split; [eauto 80 with render|].
  vm_compute. repeat split.
Qed.

End ItemShapes.

Lemma UpdateIcon_status data :
  (Data.field data = Some "status" ->
   UpdateIcon data = NHost "StatusBadge" [("color", AOpt (Data.value data))] [])
  /\ (Data.field data <> Some "status" ->
      UpdateIcon data = NHost "TimelineDot" [] []).
Proof.
  unfold UpdateIcon. split.
  - intros ->. reflexivity.
  - intros H. destruct (Data.field data) as [f|]; [|reflexivity].
    destruct (String.eqb_spec f "status"); [subst; contradiction | reflexivity].
Qed.

(** X3. The icon of a rendered update item is a status badge coloured by the
    new value exactly when the changed field is "status"; for any other
    field, or none, it is the plain dot. *)
Theorem update_icon_by_field (free_user : option User.t) (key : string)
    (props : Activity.t) (t : Node) :
  renders free_user (NUpdate key props) (Ok t) ->
  (Data.field (Activity.data props) = Some "status" ->
   icons t =
   [NHost "StatusBadge"
      [("color", AOpt (Data.value (Activity.data props)))] []])
  /\ (Data.field (Activity.data props) <> Some "status" ->
      icons t = [NHost "TimelineDot" [] []]).
Proof.
  intros H.
  destruct (rendered_update_has_users _ _ _ _ H) as [u Hu].
  destruct (update_item_shape free_user key props u Hu) as (t' & Ht' & Hi & _).
  pose proof (renders_unique _ _ _ _ H Ht') as E. injection E as ->.
  destruct (UpdateIcon_status (Activity.data props)) as [Hs Hd].
  rewrite Hi. split; intros Hf; [now rewrite Hs | now rewrite Hd].
Qed.

Lemma update_icon_by_field_witness :
  renders None (NUpdate "3" status_change) (Ok status_item)
  /\ icons status_item = [NHost "StatusBadge" [("color", AOpt (Some "green"))] []]
  /\ icons retitled_item = [NHost "TimelineDot" [] []].
Proof.
  assert (H : renders None (NUpdate "3" status_change) (Ok status_item)).
  { exists 24. vm_compute. reflexivity. }
  assert (H' : renders None (NUpdate "7" (retitled (Some "Old Co")))
                 (Ok retitled_item)).
  { exists 24. vm_compute. reflexivity. }
  split; [exact H|]. split.
  - exact (proj1 (update_icon_by_field None "3" status_change status_item H)
             eq_refl).
  - apply (proj2 (update_icon_by_field None "7" _ retitled_item H')).
    discriminate.
Defined.

(** X4. The timestamp link of a rendered update item points at the item's
    own anchor, and a click on it puts that fragment on the clipboard. *)
Theorem update_permalink (free_user : option User.t) (key : string)
    (props : Activity.t) (t : Node) (w : World) :
  renders free_user (NUpdate key props) (Ok t) ->
  exists a h,
    anchor t = Some a
    /\ links t = [Some ("#" ++ a)]
    /\ linkHandlers t = [Some h]
    /\ clipboard (click h w) = Some ("#" ++ a).
Proof.
  intros H.
  destruct (rendered_update_has_users _ _ _ _ H) as [u Hu].
  destruct (update_item_shape free_user key props u Hu)
    as (t' & Ht' & _ & Hh & _ & Ha & Hl).
  pose proof (renders_unique _ _ _ _ H Ht') as E. injection E as ->.
  exists ("update-" ++ Activity.id props),
         (LinkClick ("#update-" ++ Activity.id props)).
  repeat split; assumption.
Qed.

Lemma update_permalink_witness :
  renders None (NUpdate "7" (retitled (Some "Old Co"))) (Ok retitled_item)
  /\ exists a h,
       anchor retitled_item = Some a
       /\ links retitled_item = [Some ("#" ++ a)]
       /\ linkHandlers retitled_item = [Some h]
       /\ clipboard (click h (mounted emptyDraft)) = Some ("#" ++ a).
Proof.
  assert (H : renders None (NUpdate "7" (retitled (Some "Old Co")))
                (Ok retitled_item)).
  { exists 24. vm_compute. reflexivity. }
  split; [exact H|].
  exact (update_permalink None "7" _ retitled_item (mounted emptyDraft) H).
Defined.

(** X5. The timestamp link of a rendered comment item does not point at the
    item: the item is anchored at comment-<id>, the link targets, and a
    click copies, #action-<id>. *)
Theorem comment_permalink_elsewhere (free_user : option User.t) (key : string)
    (props : Activity.t) (onDelete : option Callback) (t : Node) (w : World) :
  renders free_user (NComment key props onDelete) (Ok t) ->
  exists a target h,
    anchor t = Some a
    /\ links t = [Some target]
    /\ linkHandlers t = [Some h]
    /\ clipboard (click h w) = Some target
    /\ target = "#action-" ++ Activity.id props
    /\ target <> "#" ++ a.
Proof.
  intros H.
  destruct (rendered_comment_has_users _ _ _ _ _ H) as [u Hu].
  destruct (comment_item_shape free_user key props onDelete u Hu)
    as (t' & Ht' & _ & _ & _ & Hh & _ & Ha & Hl).
  pose proof (renders_unique _ _ _ _ H Ht') as E. injection E as ->.
  exists ("comment-" ++ Activity.id props), ("#action-" ++ Activity.id props),
         (LinkClick ("#action-" ++ Activity.id props)).
  repeat split; try assumption.
  simpl. discriminate.
Qed.

Lemma comment_permalink_elsewhere_witness :
  renders None (NComment "9" remark None) (Ok remark_item_without_delete)
  /\ exists a target h,
       anchor remark_item_without_delete = Some a
       /\ links remark_item_without_delete = [Some target]
       /\ linkHandlers remark_item_without_delete = [Some h]
       /\ clipboard (click h (mounted emptyDraft)) = Some target
       /\ target = "#action-9"
       /\ target <> "#" ++ a.
Proof.
  assert (H : renders None (NComment "9" remark None)
                (Ok remark_item_without_delete)).
  { exists 24. vm_compute. reflexivity. }
  split; [exact H|].
  exact (comment_permalink_elsewhere None "9" remark None _
           (mounted emptyDraft) H).
Defined.

(** X6. A rendered comment item hands [data.comment] to its one box as HTML,
    unchanged, and shows it nowhere as text; its header shows the author's
    label and its avatar is the author's. *)
Theorem comment_body_verbatim (free_user : option User.t) (key : string)
    (props : Activity.t) (onDelete : option Callback) (t : Node) :
  renders free_user (NComment key props onDelete) (Ok t) ->
  exists u,
    Activity.users props = Some u
    /\ bodies t = [Some (AOpt (Data.comment (Activity.data props)))]
    /\ sentence t = Some (shown (displayName u))
    /\ avatars t =
       [[("src", AOpt (User.avatar u)); ("name", AOpt (User.name u));
         ("size", AStr "xs"); ("presence", AOpt (User.presence u))]].
Proof.
  intros H.
  destruct (rendered_comment_has_users _ _ _ _ _ H) as [u Hu].
  destruct (comment_item_shape free_user key props onDelete u Hu)
    as (t' & Ht' & Hb & Hs & Hav & _).
  pose proof (renders_unique _ _ _ _ H Ht') as E. injection E as ->.
  exists u. repeat split; assumption.
Qed.

Lemma comment_body_verbatim_witness :
  renders None (NComment "9" remark None) (Ok remark_item_without_delete)
  /\ bodies remark_item_without_delete = [Some (AOpt (Some "<p>hello</p>"))].
Proof.
  assert (H : renders None (NComment "9" remark None)
                (Ok remark_item_without_delete)).
  { exists 24. vm_compute. reflexivity. }
  split; [exact H|].
  destruct (comment_body_verbatim None "9" remark None _ H)
    as (u & _ & Hb & _).
  exact Hb.
Defined.

(** X7. Every rendered update and comment item enters from, and leaves to,
    the same collapsed state (no opacity, no height) and rests expanded;
    the composer carries no motion at all, no anchor and no menu. *)
Theorem items_animate_composer_does_not (free_user : option User.t)
    (key : string) (props : Activity.t) (onDelete : option Callback)
    (user : User.t) (onSubmit : Callback) :
  (forall t, renders free_user (NUpdate key props) (Ok t) ->
             motion t = (Some collapsed, Some expanded, Some collapsed))
  /\ (forall t, renders free_user (NComment key props onDelete) (Ok t) ->
                motion t = (Some collapsed, Some expanded, Some collapsed))
  /\ exists c,
       renders free_user (NAddComment user onSubmit) (Ok c)
       /\ motion c = (None, None, None)
       /\ anchor c = None
       /\ menu c = [].
Proof.
  repeat split.
  - intros t H.
    destruct (rendered_update_has_users _ _ _ _ H) as [u Hu].
    destruct (update_item_shape free_user key props u Hu)
      as (t' & Ht' & _ & _ & Hm & _).
    pose proof (renders_unique _ _ _ _ H Ht') as E. now injection E as ->.
  - intros t H.
    destruct (rendered_comment_has_users _ _ _ _ _ H) as [u Hu].
    destruct (comment_item_shape free_user key props onDelete u Hu)
      as (t' & Ht' & _ & _ & _ & _ & Hm & _).
    pose proof (renders_unique _ _ _ _ H Ht') as E. now injection E as ->.
  - destruct (composer_shape free_user user onSubmit)
      as (c & Hc & _ & _ & _ & Hm & Ha & Hmenu).
    exists c. auto.
Qed.

Lemma items_animate_composer_does_not_witness :
  motion retitled_item = (Some collapsed, Some expanded, Some collapsed)
  /\ motion remark_item = (Some collapsed, Some expanded, Some collapsed).
Proof.
  destruct (items_animate_composer_does_not None "7" (retitled (Some "Old Co"))
              None ada (Fn "addComment")) as (Hu & _ & _).
  destruct (items_animate_composer_does_not None "9" remark
              (Some (Fn "deleteComment")) ada (Fn "addComment")) as (_ & Hc & _).
  split.
  - apply Hu. exists 24. vm_compute. reflexivity.
  - apply Hc. exists 24. vm_compute. reflexivity.
Defined.

(** X8. The composer's form submits to the callback the composer was given,
    by the button and by meta+Enter alike, and its avatar is the current
    user's: from the rendered composer, the form's handler called with the
    draft records one call of that callback with that draft. *)
Theorem composer_wiring (free_user : option User.t)
    (props : ActivityTimelineProps) (c : Node) (w : World) :
  renders free_user (composer props) (Ok c) ->
  formHandlers c = [Some (AOn (FormSubmit (onAddComment props)))]
  /\ editorHandlers c = [Some (AOn (EditorKeyDown (onAddComment props)))]
  /\ calls (step (Submit (FormSubmit (onAddComment props))) w) =
     (calls w ++ [CallSubmit (onAddComment props) (values w)])%list
  /\ avatars c =
     [[("src", AOpt (User.avatar (currentUser props)));
       ("name", AOpt (User.name (currentUser props)));
       ("size", AStr "xs");
       ("presence", AOpt (User.presence (currentUser props)))]].
Proof.
  intros H.
  destruct (composer_shape free_user (currentUser props) (onAddComment props))
    as (c' & Hc' & Hf & He & Hav & _).
  pose proof (renders_unique _ _ _ _ H Hc') as E. injection E as ->.
  repeat split; assumption.
Qed.

Lemma composer_wiring_witness :
  renders None (composer no_feed) (Ok no_feed_composer)
  /\ formHandlers no_feed_composer = [Some (AOn (FormSubmit (Fn "addComment")))].
Proof.
  assert (H : renders None (composer no_feed) (Ok no_feed_composer)).
  { exists 24. vm_compute. reflexivity. }
  split; [exact H|].
  exact (proj1 (composer_wiring None no_feed no_feed_composer
                  (mounted emptyDraft) H)).
Defined.

(** ** The action renderer *)



(** ** Which feeds render *)

Lemma renders_host_inv fu name attrs l t :
  renders fu (NHost name attrs l) (Ok t) ->
  exists ts, t = NHost name attrs ts /\ renders_all fu l (Ok ts).
Proof.
  intros [[|fuel] H]; [discriminate|]. simpl in H.
  destruct (render_all (render fu fuel) l) as [[ts|e]|] eqn:E; try discriminate.
  injection H as <-. exists ts. split; [reflexivity|]. now exists fuel.
Qed.

Lemma renders_arr_inv fu l t :
  renders fu (NArr l) (Ok t) ->
  exists ts, t = NArr ts /\ renders_all fu l (Ok ts).
Proof.
  intros [[|fuel] H]; [discriminate|]. simpl in H.
  destruct (render_all (render fu fuel) l) as [[ts|e]|] eqn:E; try discriminate.
  injection H as <-. exists ts. split; [reflexivity|]. now exists fuel.
Qed.

Lemma renders_all_cons_inv fu n l ts :
  renders_all fu (n :: l) (Ok ts) ->
  exists t ts', ts = t :: ts' /\ renders fu n (Ok t) /\ renders_all fu l (Ok ts').
Proof.
  intros [fuel H]. simpl in H.
  destruct (render fu fuel n) as [[t|e]|] eqn:En; try discriminate.
  destruct (render_all (render fu fuel) l) as [[ts'|e]|] eqn:El; try discriminate.
  injection H as <-. exists t, ts'.
  split; [reflexivity|]. split; now exists fuel.
Qed.

Lemma renders_all_map_iff fu (f : Activity.t -> Node) (l : list Activity.t) :
  (exists ts, renders_all fu (map f l) (Ok ts)) <->
  Forall (fun a => exists t, renders fu (f a) (Ok t)) l.
Proof.
  induction l as [|a l IH]; simpl.
  - split; [constructor | intros _; exists []; apply renders_all_nil].
  - split.
    + intros [ts H].
      destruct (renders_all_cons_inv _ _ _ _ H) as (t & ts' & _ & Ht & Hts).
      constructor; [eauto | apply IH; eauto].
    + intros H. inversion H as [|? ? [t Ht] Hl]; subst.
      apply IH in Hl. destruct Hl as [ts Hts].
      exists (t :: ts). now apply renders_all_cons.
Qed.

(** The feed renders exactly when each of its records does. *)
Lemma feed_renders_iff fu props l :
  activities props = Some l ->
  (exists t, renders fu (ActivityTimeline props) (Ok t)) <->
  Forall (fun a => exists t,
            renders fu (dispatch (onDeleteComment props) a) (Ok t)) l.
Proof.
  intros Hl. rewrite <- renders_all_map_iff. split.
  - intros [t H]. unfold ActivityTimeline in H. rewrite Hl in H.
    destruct (renders_host_inv _ _ _ _ _ H) as (ts & _ & H1).
    destruct (renders_all_cons_inv _ _ _ _ H1) as (t1 & _ & _ & H2 & _).
    destruct (renders_host_inv _ _ _ _ _ H2) as (ts2 & _ & H3).
    destruct (renders_all_cons_inv _ _ _ _ H3) as (t3 & _ & _ & H4 & _).
    destruct (renders_arr_inv _ _ _ H4) as (ts4 & _ & H5). eauto.
  - intros [ts H].
    destruct (feed_renders fu props l ts Hl H) as (c & _ & Hc). eauto.
Qed.

Lemma record_renders_iff onDelete a :
  (exists t, renders None (dispatch onDelete a) (Ok t)) <-> renderable a = true.
Proof.
  unfold dispatch, renderable.
  destruct (Activity.type a =? "action").
  - split; [|discriminate]. intros [t H].
    pose proof (renders_unique _ _ _ _ H (action_throws _ _)). discriminate.
  - destruct (Activity.type a =? "comment"); simpl.
    + destruct (Activity.users a) as [u|] eqn:Hu.
      * split; [reflexivity|]. intros _.
        destruct (comment_renders None (Activity.id a) a onDelete u Hu)
          as (t & Ht & _). eauto.
      * split; [|discriminate]. intros [t H].
        pose proof (renders_unique _ _ _ _ H (comment_throws None _ _ onDelete Hu)).
        discriminate.
    + destruct (Activity.type a =? "update").
      * destruct (Activity.users a) as [u|] eqn:Hu.
        -- split; [reflexivity|]. intros _.
           destruct (update_renders None (Activity.id a) a u Hu) as (t & Ht & _).
           eauto.
        -- split; [|discriminate]. intros [t H].
           pose proof (renders_unique _ _ _ _ H (update_throws None _ _ Hu)).
           discriminate.
      * split; [reflexivity|]. intros _. exists NUndefined.
        apply renders_undefined.
Qed.



(** ** Keys *)

Lemma NoDup_ids_filter (p : Activity.t -> bool) (l : list Activity.t) :
  NoDup (map Activity.id l) ->
  NoDup (map (fun a => Some (Activity.id a)) (filter p l)).
Proof.
  induction l as [|a l IH]; simpl; intros H; [constructor|].
  inversion H as [|? ? Hn Hl]; subst.
  destruct (p a); [|now apply IH].
  simpl. constructor; [|now apply IH].
  intros Hin. apply in_map_iff in Hin. destruct Hin as (x & Hx & Hf).
  apply filter_In in Hf. destruct Hf as [Hf _].
  apply Hn. injection Hx as Hx. rewrite <- Hx. now apply in_map.
Qed.

(** X11. When the ids of the feed are distinct, so are the keys of the
    elements the feed creates. *)
Theorem distinct_ids_distinct_keys (props : ActivityTimelineProps) :
  NoDup (map Activity.id (walked props)) ->
  NoDup (map key_of (dispatched props)).
Proof.
  intros H. unfold dispatched. rewrite dispatched_keys.
  now apply NoDup_ids_filter.
Qed.

Lemma distinct_ids_distinct_keys_witness :
  NoDup (map Activity.id (walked mixed_feed))
  /\ NoDup (map key_of (dispatched mixed_feed)).
Proof.
  assert (H : NoDup (map Activity.id (walked mixed_feed))).
  { simpl. repeat constructor; simpl; intuition discriminate. }
  split; [exact H|].
  exact (distinct_ids_distinct_keys mixed_feed H).
Defined.

(** ** Key presses, drafts and promises *)

Lemma keyDown_other f key metaKey w :
  metaEnter (key, metaKey) = false ->
  step (KeyDown (EditorKeyDown f) key metaKey) w = w.
Proof.
  unfold metaEnter. simpl. now intros ->.
Qed.



Lemma values_step e w :
  changesDraft e = false -> values (step e w) = values w.
Proof.
  destruct e as [h| | |d|h|h key metaKey|i|i]; simpl; try discriminate; intros _.
  - destruct h; reflexivity.
  - destruct (prompts w) as [|p rest]; [reflexivity|].
    unfold call_optional. now destruct (fst (onConfirm p)).
  - now destruct (prompts w).
  - now destruct h.
  - destruct h; simpl; try reflexivity.
    now destruct ((key =? "Enter") && metaKey && submitRef w).
  - now destruct (i <? length (awaiting w))%nat.
Qed.

(** X13. The draft is changed by an edit or by a resolved submission and by
    nothing else: submitting, a rejected submission, key presses, clicks,
    confirmations and dismissals all leave it as it is. *)
Theorem draft_kept (es : list Event) :
  forall w,
    forallb (fun e => negb (changesDraft e)) es = true ->
    values (run es w) = values w.
Proof.
  induction es as [|e es IH]; intros w; simpl; [reflexivity|].
  intros H. apply andb_true_iff in H. destruct H as [He Hes].
  apply negb_true_iff in He.
  rewrite (IH _ Hes). now apply values_step.
Qed.

Lemma draft_kept_witness :
  forallb (fun e => negb (changesDraft e)) busy_session = true
  /\ values (run busy_session (mounted hello)) = hello.
Proof.
  split; [reflexivity|].
  exact (draft_kept busy_session (mounted hello) eq_refl).
Defined.

Lemma refs_step e w :
  formRef (step e w) = formRef w /\ submitRef (step e w) = submitRef w.
Proof.
  destruct e as [h| | |d|h|h key metaKey|i|i]; simpl.
  - destruct h; split; reflexivity.
  - destruct (prompts w) as [|p rest]; [split; reflexivity|].
    unfold call_optional. destruct (fst (onConfirm p)); split; reflexivity.
  - destruct (prompts w); split; reflexivity.
  - split; reflexivity.
  - destruct h; split; reflexivity.
  - destruct h; simpl; try (split; reflexivity).
    destruct ((key =? "Enter") && metaKey && submitRef w); split; reflexivity.
  - destruct (i <? length (awaiting w))%nat; [|split; reflexivity].
    unfold Form_onSubmit_resume. simpl.
    destruct (formRef w) eqn:E; simpl; rewrite ?E; split; reflexivity.
  - destruct (i <? length (awaiting w))%nat; split; reflexivity.
Qed.

Lemma refs_run es :
  forall w,
    formRef (run es w) = formRef w /\ submitRef (run es w) = submitRef w.
Proof.
  induction es as [|e es IH]; intros w; simpl; [split; reflexivity|].
  destruct (IH (step e w)) as [Hf Hs]. destruct (refs_step e w) as [Hf' Hs'].
  split; congruence.
Qed.

(** X14. Whatever has happened since the feed was mounted, when a waited-for
    submission resolves the draft is cleared: what was typed after
    submitting is lost with it. *)
Theorem resolution_clears_later_edits (es : list Event) (draft : Comment.t)
    (i : nat) :
  i < length (awaiting (run es (mounted draft))) ->
  values (step (Resolve i) (run es (mounted draft))) = emptyDraft.
Proof.
  intros Hi. apply resolve_clears; [exact Hi|].
  now rewrite (proj1 (refs_run es (mounted draft))).
Qed.

Lemma resolution_clears_later_edits_witness :
  values (run [Submit (FormSubmit (Fn "addComment")); Edit more]
            (mounted hello)) = more
  /\ values (run [Submit (FormSubmit (Fn "addComment")); Edit more; Resolve 0]
               (mounted hello)) = emptyDraft.
Proof.
  split; [reflexivity|].
  apply (resolution_clears_later_edits
           [Submit (FormSubmit (Fn "addComment")); Edit more] hello 0).
  simpl. lia.
Defined.

Lemma length_remove_nth {A} (i : nat) (l : list A) :
  i < length l -> S (length (remove_nth i l)) = length l.
Proof.
  revert i. induction l as [|x l IH]; intros i H; simpl in *; [lia|].
  destruct i as [|i]; simpl; [reflexivity|].
  rewrite IH; [reflexivity | lia].
Qed.

Lemma awaiting_step e w :
  length (awaiting (step e w)) + (if settles e w then 1 else 0) =
  length (awaiting w) + (if submits e w then 1 else 0).
Proof.
  destruct e as [h| | |d|h|h key metaKey|i|i]; simpl.
  - destruct h; simpl; lia.
  - destruct (prompts w) as [|p rest]; [lia|].
    unfold call_optional. destruct (fst (onConfirm p)); simpl; lia.
  - destruct (prompts w); simpl; lia.
  - lia.
  - destruct h; simpl; try lia. rewrite length_app. simpl. lia.
  - destruct h; simpl; try lia.
    destruct ((key =? "Enter") && metaKey && submitRef w); simpl; [|lia].
    rewrite length_app. simpl. lia.
  - destruct (i <? length (awaiting w))%nat eqn:Hi; [|lia].
    apply Nat.ltb_lt in Hi. pose proof (length_remove_nth i _ Hi).
    unfold Form_onSubmit_resume. simpl. destruct (formRef w); simpl; lia.
  - destruct (i <? length (awaiting w))%nat eqn:Hi; [|lia].
    apply Nat.ltb_lt in Hi. pose proof (length_remove_nth i _ Hi).
    simpl. lia.
Qed.

(** X15. Each submission waits until its own promise settles: over any
    sequence of events, the handlers still waiting are those that were
    waiting, plus the submissions, minus the settlements; a settlement that
    no handler waits for changes nothing. *)
Theorem waiting_handlers_accounted (es : list Event) :
  forall w,
    length (awaiting (run es w)) + settlements es w =
    length (awaiting w) + submissions es w.
Proof.
  induction es as [|e es IH]; intros w; simpl; [lia|].
  specialize (IH (step e w)). pose proof (awaiting_step e w). lia.
Qed.

(** ** Deletions *)

Lemma asked_step f id e w :
  asked f id (step e w) ->
  asked f id w \/ e = Click (DeleteClick id (Some f)).
Proof.
  destruct e as [h| | |d|h|h key metaKey|i|i]; simpl.
  - destruct h as [target|id' od|g|g]; simpl; auto.
    unfold asked; simpl.
    intros [H | (p & [Hp | Hp] & Hc)]; auto.
    + subst p. simpl in Hc. injection Hc as -> ->. now right.
    + left. right. eauto.
  - destruct (prompts w) as [|p rest] eqn:Hw; [auto|].
    unfold asked. rewrite Hw, calls_call_optional.
    destruct (onConfirm p) as [[g|] id'] eqn:Hp; simpl.
    + intros [H | (q & Hq & Hc)].
      * apply in_app_or in H. destruct H as [H | [H | []]]; auto.
        injection H as -> ->.
        left. right. exists p. split; [now left | exact Hp].
      * left. right. exists q. split; [now right | exact Hc].
    + rewrite app_nil_r. intros [H | (q & Hq & Hc)]; auto.
      left. right. exists q. split; [now right | exact Hc].
  - destruct (prompts w) as [|p rest] eqn:Hw; [auto|].
    unfold asked. rewrite Hw. simpl.
    intros [H | (q & Hq & Hc)]; auto.
    left. right. exists q. split; [now right | exact Hc].
  - auto.
  - destruct h; simpl; auto.
    unfold asked; simpl. intros [H | H]; auto.
    apply in_app_or in H. destruct H as [H | [H | []]]; [auto | discriminate].
  - destruct h; simpl; auto.
    destruct ((key =? "Enter") && metaKey && submitRef w); simpl; auto.
    unfold asked; simpl. intros [H | H]; auto.
    apply in_app_or in H. destruct H as [H | [H | []]]; [auto | discriminate].
  - destruct (i <? length (awaiting w))%nat; auto.
    unfold Form_onSubmit_resume. simpl. destruct (formRef w); simpl; auto.
  - destruct (i <? length (awaiting w))%nat; auto.
Qed.

Lemma asked_run f id es :
  forall w,
    asked f id (run es w) ->
    asked f id w \/ In (Click (DeleteClick id (Some f))) es.
Proof.
  induction es as [|e es IH]; intros w; simpl; [auto|].
  intros H. destruct (IH _ H) as [H' | H']; [|auto].
  destruct (asked_step _ _ _ _ H') as [H'' | H'']; auto.
Qed.

(** X16. A delete callback is only ever called with the id of a comment whose
    Delete was selected: on a freshly mounted feed, every delete call the
    page makes carries the callback and the id of an earlier Delete click. *)
Theorem deletes_only_what_was_selected (es : list Event) (draft : Comment.t)
    (f : Callback) (id : string) :
  In (CallDelete f id) (calls (run es (mounted draft))) ->
  In (Click (DeleteClick id (Some f))) es.
Proof.
  intros H.
  destruct (asked_run f id es (mounted draft) (or_introl H))
    as [[H' | (p & H' & _)] | H']; [destruct H' | destruct H' | exact H'].
Qed.

Lemma deletes_only_what_was_selected_witness :
  In (CallDelete (Fn "deleteComment") "9")
     (calls (run [Click (DeleteClick "9" (Some (Fn "deleteComment"))); Confirm]
               (mounted hello)))
  /\ In (Click (DeleteClick "9" (Some (Fn "deleteComment"))))
        [Click (DeleteClick "9" (Some (Fn "deleteComment"))); Confirm].
Proof.
  assert (H : In (CallDelete (Fn "deleteComment") "9")
                (calls (run [Click (DeleteClick "9" (Some (Fn "deleteComment")));
                             Confirm] (mounted hello)))).
  { simpl. left. reflexivity. }
  split; [exact H|].
  exact (deletes_only_what_was_selected _ hello _ _ H).
Defined.
